(** * The Planner agent of the deep-research system (planner_agent.py)

    A shallow embedding of [PlannerContext], [PlannerAgent] and the two
    debug-dump helpers, and the properties of the planning round.

    Modelling conventions.
    - Python [str] is [string], read as a sequence of code points below 256;
      [str.strip] removes the code points Python calls whitespace in that
      range.  Python [int] is [Z]; Python [float] is the binary64 [float] of
      the kernel, added with [PrimFloat.add].
    - A file holds its text as it is stored; reading it in text mode
      translates its line ends.
    - A [set] of file names is a [gset]; the order in which Python iterates
      over it is not specified, so it is a field of the runtime, constrained
      only to enumerate the set.  A [dict] filled by successive assignments is
      an association list in insertion order.
    - The context is mutated in place and the file system is written to, also
      by a call that later raises: the round runs in a state monad whose state
      survives a raise.
    - The model's answers, the clock and the token usage reported for each
      call come from outside: one [Turn] per model call.  The round consumes
      turns; when they run out before the round ends, it has no result yet.
    - Logging is not modelled.  Exceptions are those deriving from
      [Exception].  Arguments of a function call are taken to decode to an
      object with string values (as the tool's schema declares) or not to
      decode at all. *)

From Stdlib Require Import Floats.PrimFloat ZArith Ascii String.
From stdpp Require Import gmap strings list.

Local Open Scope string_scope.
Local Open Scope list_scope.
Local Open Scope Z_scope.

(** ** Strings *)

(** [str.isspace] on one code point below 256. *)
Definition isspace (a : ascii) : bool :=
  let n := nat_of_ascii a in
  ((9 <=? n)%nat && (n <=? 13)%nat) || ((28 <=? n)%nat && (n <=? 32)%nat)
  || (n =? 133)%nat || (n =? 160)%nat.

Fixpoint lstrip (s : string) : string :=
  match s with
  | String a r => if isspace a then lstrip r else s
  | EmptyString => EmptyString
  end.

Definition rstrip (s : string) : string := String.rev (lstrip (String.rev s)).

(** [s.strip()] *)
Definition strip (s : string) : string := rstrip (lstrip s).

(** Every code point of [s] is whitespace. *)
Fixpoint all_space (s : string) : bool :=
  match s with
  | String a r => isspace a && all_space r
  | EmptyString => true
  end.

(** What reading in text mode does to line ends (universal newlines): a
    carriage return followed by a line feed becomes a line feed, and so does a
    carriage return on its own.  [after_cr] tells that the character before
    was a carriage return, whose line feed has been given already. *)
Fixpoint translate_newlines (after_cr : bool) (s : string) : string :=
  match s with
  | EmptyString => EmptyString
  | String a r =>
      if Ascii.eqb a (ascii_of_nat 13)
      then String (ascii_of_nat 10) (translate_newlines true r)
      else if Ascii.eqb a (ascii_of_nat 10)
      then if after_cr then translate_newlines false r
           else String (ascii_of_nat 10) (translate_newlines false r)
      else String a (translate_newlines false r)
  end.

Definition universal_newlines (s : string) : string :=
  translate_newlines false s.

(** The text holds a carriage return. *)
Fixpoint has_cr (s : string) : bool :=
  match s with
  | String a r => Ascii.eqb a (ascii_of_nat 13) || has_cr r
  | EmptyString => false
  end.

(** [sep.join(l)] *)
Fixpoint join (sep : string) (l : list string) : string :=
  match l with
  | [] => ""
  | [x] => x
  | x :: r => x +:+ sep +:+ join sep r
  end.

(** [s * n] *)
Fixpoint str_mul (s : string) (n : nat) : string :=
  match n with
  | O => ""
  | S k => s +:+ str_mul s k
  end.

(** What an f-string prints for a value that is a string or [None]. *)
Definition format_opt (o : option string) : string :=
  match o with
  | Some s => s
  | None => "None"
  end.

(** Truth value of a string-or-[None]: neither [None] nor empty. *)
Definition truthy (o : option string) : bool :=
  match o with
  | Some (String _ _) => true
  | _ => false
  end.

(** ** Exceptions and results *)

(** An exception: its class and what [str(e)] gives. *)
Record exn := Exn { exn_class : string; exn_str : string }.

Inductive result (A : Type) : Type :=
| Ok (a : A)
| Raise (e : exn).
Arguments Ok {A} a.
Arguments Raise {A} e.

(** ** The file system *)

Inductive node :=
| File (content : string)
| Dir.

Abbreviation FS := (gmap string node).

(** The directory part of a path: the text before its last slash. *)
Fixpoint dirname (p : string) : option string :=
  match p with
  | EmptyString => None
  | String a r =>
      match dirname r with
      | Some d => Some (String a d)
      | None => if Ascii.eqb a "/" then Some "" else None
      end
  end.

(** The paths above [p]: the text before each of its slashes. *)
Fixpoint ancestors (p : string) : list string :=
  match p with
  | EmptyString => []
  | String a r =>
      (if Ascii.eqb a "/" then [EmptyString] else [])
      ++ (String a <$> ancestors r)
  end.

(** [os.path.exists(p)] *)
Definition path_exists (fs : FS) (p : string) : bool :=
  match fs !! p with
  | Some _ => true
  | None => false
  end.

(** [os.makedirs(p)], called on a path that does not exist. *)
Definition makedirs (p : string) (fs : FS) : FS := <[p := Dir]> fs.

(** ** The data model *)

(** The token usage of one model call, as [chat_completion.get_token_usage()]
    reports it: a dict, here a record.  The key [cached_prompt_tokens] may be
    missing; the entry [total_cost] is overwritten by [log_usage], so what it
    holds before does not matter. *)
Module Usage.
Record t := Build {
  prompt_tokens : Z;
  completion_tokens : Z;
  total_tokens : Z;
  cached_prompt_tokens : option Z;
  total_cost : float
}.
End Usage.

(** Modelled from the spec: [common.TokenUsage], whose declaration is not in
    this file: "prompt/completion/total token counts, cached-token count,
    accumulated cost, accumulated thinking time".  A plain object, so it is
    true in a boolean test. *)
Module TokenUsage.
Record t := Build {
  prompt_tokens : Z;
  completion_tokens : Z;
  total_tokens : Z;
  total_cost : float;
  thinking_time : float;
  cached_prompt_tokens : Z
}.
End TokenUsage.

(** An entry of the message list sent to the model. *)
Record Message := Build_Message {
  role : string;
  msg_content : option string;
  (** name and arguments of the recorded call *)
  msg_function_call : option (string * string)
}.

Record FunctionCall := Build_FunctionCall {
  name : string;
  arguments : string
}.

(** [response.choices[0].message] *)
Record ChatMessage := Build_ChatMessage {
  content : option string;
  function_call : option FunctionCall
}.

Record PlannerContext := Build_PlannerContext {
  conversation_history : list (gmap string string);
  created_files : gset string;
  user_input : string;
  scratchpad_content : option string;
  total_usage : option TokenUsage.t;
  debug : bool;
  (** the file name of a tracked change is whatever the model's call gave,
      [None] when it gave none *)
  files_changed_this_round : gset (option string)
}.

(** The constructor with [__post_init__]: a missing change set becomes the
    empty set. *)
Definition PlannerContext_init (history : list (gmap string string))
    (created : gset string) (input : string) (scratchpad : option string)
    (usage : option TokenUsage.t) (dbg : bool)
    (changed : option (gset (option string))) : PlannerContext :=
  Build_PlannerContext history created input scratchpad usage dbg
    (default ∅ changed).

Definition track_file_change (filename : option string) (c : PlannerContext)
    : PlannerContext :=
  Build_PlannerContext (conversation_history c) (created_files c)
    (user_input c) (scratchpad_content c) (total_usage c) (debug c)
    ({[filename]} ∪ files_changed_this_round c).

Definition reset_file_changes (c : PlannerContext) : PlannerContext :=
  Build_PlannerContext (conversation_history c) (created_files c)
    (user_input c) (scratchpad_content c) (total_usage c) (debug c) ∅.

Definition set_total_usage (u : TokenUsage.t) (c : PlannerContext)
    : PlannerContext :=
  Build_PlannerContext (conversation_history c) (created_files c)
    (user_input c) (scratchpad_content c) (Some u) (debug c)
    (files_changed_this_round c).

Record PlannerAgent := Build_PlannerAgent {
  model : string;
  system_prompt : string
}.

(** What the outside world contributes to one pass of the loop. *)
Record Turn := Build_Turn {
  (** [datetime.now()], formatted, when the response is dumped *)
  stamp : string;
  (** [time.time() - start_time] *)
  elapsed : float;
  (** what [chat_completion.chat_completion] does: a reply or an exception *)
  response : result ChatMessage;
  (** what [chat_completion.get_token_usage()] gives after the call *)
  usage : Usage.t
}.

(** ** The state monad of a round *)

Record State := Build_State {
  ctx : PlannerContext;
  fs : FS;
  messages : list Message
}.

Definition M (A : Type) : Type := State → result A * State.

#[global] Instance M_ret : MRet M := λ A a s, (Ok a, s).
#[global] Instance M_bind : MBind M := λ A B k m s,
  match m s with
  | (Ok a, s') => k a s'
  | (Raise e, s') => (Raise e, s')
  end.
Definition raise {A} (e : exn) : M A := λ s, (Raise e, s).
(** [try: m except Exception as e: h e] *)
Definition try_except {A} (m : M A) (h : exn → M A) : M A :=
  λ s, match m s with
       | (Ok a, s') => (Ok a, s')
       | (Raise e, s') => h e s'
       end.

Definition get_ctx : M PlannerContext := λ s, (Ok (ctx s), s).
Definition get_fs : M FS := λ s, (Ok (fs s), s).
Definition get_messages : M (list Message) := λ s, (Ok (messages s), s).
Definition modify_ctx (f : PlannerContext → PlannerContext) : M unit :=
  λ s, (Ok tt, Build_State (f (ctx s)) (fs s) (messages s)).
Definition set_messages (l : list Message) : M unit :=
  λ s, (Ok tt, Build_State (ctx s) (fs s) l).
(** [messages.append(m)] *)
Definition append_message (m : Message) : M unit :=
  λ s, (Ok tt, Build_State (ctx s) (fs s) (messages s ++ [m])).
(** A file-system operation; when it raises, the files are as before. *)
Definition on_fs (f : FS → result FS) : M unit :=
  λ s, match f (fs s) with
       | Ok fs' => (Ok tt, Build_State (ctx s) fs' (messages s))
       | Raise e => (Raise e, s)
       end.
Definition lift {A} (r : result A) : M A := λ s, (r, s).

(** ** The runtime and the file operations *)

(** Things the program takes from the Python runtime, the standard library
    and the modules [tools] and [common], which are not part of this file. *)
Class Runtime := {
  (** [repr] of a string, as it appears in the message of an [OSError] *)
  repr : string → string;
  (** [json.loads] on the arguments of a function call *)
  json_loads : string → result (gmap string string);
  (** [json.dumps(arguments)] *)
  json_dumps : gmap string string → string;
  (** [json.dumps(d, indent=2)] of a function-call record (name, arguments) *)
  json_dumps_call : string → string → string;
  (** [json.dumps(arguments, indent=2, ensure_ascii=False)] *)
  json_dumps_pretty : gmap string string → string;
  (** [TokenTracker.calculate_cost(prompt, completion, cached, model)] *)
  calculate_cost : Z → Z → Z → string → float;
  (** [tools.create_file(filename, content)] *)
  create_file : option string → option string → FS → result FS;
  (** the order in which a set of strings is iterated over; it is a function
      of the set's value, which fits one set object that is not written to
      (the case within a call of [_build_prompt]), and does not tell apart two
      equal sets built in different orders *)
  set_iter : gset string → list string;
  set_iter_perm : ∀ s, set_iter s ≡ₚ elements s
}.

Section Planner.
Context {rt : Runtime}.

Definition os_error (cls : string) (errno : string) (strerror : string)
    (p : string) : exn :=
  Exn cls ("[Errno " +:+ errno +:+ "] " +:+ strerror +:+ ": " +:+ repr p).

Definition FileNotFoundError_at := os_error "FileNotFoundError" "2" "No such file or directory".
Definition IsADirectoryError_at := os_error "IsADirectoryError" "21" "Is a directory".
Definition NotADirectoryError_at := os_error "NotADirectoryError" "20" "Not a directory".

(** One of the paths above [p] is an ordinary file. *)
Definition under_a_file (fs : FS) (p : string) : bool :=
  existsb (λ d, match fs !! d with Some (File _) => true | _ => false end)
    (ancestors p).

(** [open(p, 'r', encoding='utf-8')] and the text the file holds, as it is
    stored. *)
Definition open_read (fs : FS) (p : string) : result string :=
  match fs !! p with
  | Some (File c) => Ok c
  | Some Dir => Raise (IsADirectoryError_at p)
  | None =>
      if under_a_file fs p then Raise (NotADirectoryError_at p)
      else Raise (FileNotFoundError_at p)
  end.

(** [open(p, 'r', encoding='utf-8').read()]: the stored text with its line
    ends translated. *)
Definition read_text (fs : FS) (p : string) : result string :=
  match open_read fs p with
  | Ok c => Ok (universal_newlines c)
  | Raise e => Raise e
  end.

(** [open(p, 'w', encoding='utf-8')] followed by writing [text] and closing. *)
Definition open_write (p : string) (text : string) (fs : FS) : result FS :=
  match fs !! p with
  | Some Dir => Raise (IsADirectoryError_at p)
  | _ =>
      match dirname p with
      | None | Some EmptyString => Ok (<[p := File text]> fs)
      | Some d =>
          match fs !! d with
          | Some Dir => Ok (<[p := File text]> fs)
          | Some (File _) => Raise (NotADirectoryError_at p)
          | None => Raise (FileNotFoundError_at p)
          end
      end
  end.

(** ** Debug dumps *)

Definition nl : string := String (ascii_of_nat 10) "".

Definition render_prompt_message (msg : Message) : string :=
  "Role: " +:+ role msg +:+ nl
  +:+ "Content:" +:+ nl
  +:+ format_opt (msg_content msg) +:+ nl
  +:+ match msg_function_call msg with
      | Some (n, a) => "Function Call:" +:+ nl +:+ json_dumps_call n a +:+ nl
      | None => ""
      end
  +:+ str_mul "-" 80 +:+ nl.

Definition ensure_prompts_dir : M unit :=
  f ← get_fs;
  if path_exists f "prompts" then mret tt
  else on_fs (λ f, Ok (makedirs "prompts" f)).

(** [save_prompt_to_file(messages, round_time, step)]; [now] is the reading
    of the clock used when [round_time] is [None]. *)
Definition save_prompt_to_file (msgs : list Message)
    (round_time : option string) (step : string) (now : string) : M unit :=
  ensure_prompts_dir;;
  let round_time := default now round_time in
  let filename := "prompts/" +:+ round_time +:+ "_planner_" +:+ step +:+ "_prompt.txt" in
  on_fs (open_write filename
           (foldr (λ msg acc, render_prompt_message msg +:+ acc) "" msgs)).

Definition render_tool_call (tool_call : string * gmap string string) : string :=
  "Tool: " +:+ tool_call.1 +:+ nl
  +:+ "Arguments:" +:+ nl
  +:+ json_dumps_pretty tool_call.2 +:+ nl
  +:+ str_mul "-" 80 +:+ nl.

(** [save_response_to_file(response, tool_calls, round_time, step)] *)
Definition save_response_to_file (resp : string)
    (tool_calls : list (string * gmap string string))
    (round_time : option string) (step : string) (now : string) : M unit :=
  ensure_prompts_dir;;
  let round_time := default now round_time in
  let filename := "prompts/" +:+ round_time +:+ "_planner_" +:+ step +:+ "_response.txt" in
  on_fs (open_write filename
           ("=== Response ===" +:+ nl
            +:+ resp +:+ nl
            +:+ match tool_calls with
                | [] => ""
                | _ => nl +:+ "=== Tool Calls ===" +:+ nl
                       +:+ foldr (λ c acc, render_tool_call c +:+ acc) "" tool_calls
                end)).

(** [log_usage]: computes the cost of the call and stores it in the dict. *)
Definition log_usage (u : Usage.t) (thinking_time : float)
    (step_name : string) (mdl : string) : Usage.t :=
  let cached_tokens := default 0 (Usage.cached_prompt_tokens u) in
  let cost := calculate_cost (Usage.prompt_tokens u)
                (Usage.completion_tokens u) cached_tokens mdl in
  Usage.Build (Usage.prompt_tokens u) (Usage.completion_tokens u)
    (Usage.total_tokens u) (Usage.cached_prompt_tokens u) cost.

(** ** PlannerAgent *)

(** [_load_system_prompt]; [today] is [datetime.now().strftime("%Y-%m-%d")]. *)
Definition _load_system_prompt (today : string) (f : FS) : result string :=
  let today_prompt :=
    "You are the Planner agent in a multi-agent research system. Today's date is "
    +:+ today
    +:+ ". Take this into consideration when you plan tasks and analyze progress." in
  if path_exists f ".plannerrules" then
    match read_text f ".plannerrules" with
    | Ok text => Ok (strip text +:+ nl +:+ today_prompt)
    | Raise e => Raise e
    end
  else Raise (Exn "FileNotFoundError" "Required .plannerrules file not found").

(** [PlannerAgent(model)] *)
Definition PlannerAgent_init (today : string) (f : FS) (mdl : string)
    : result PlannerAgent :=
  match _load_system_prompt today f with
  | Ok p => Ok (Build_PlannerAgent mdl p)
  | Raise e => Raise e
  end.

(** [d[k] = v] on a dict kept in insertion order. *)
Fixpoint dict_set (d : list (string * string)) (k v : string)
    : list (string * string) :=
  match d with
  | [] => [(k, v)]
  | (k', v') :: r =>
      if decide (k' = k) then (k, v) :: r else (k', v') :: dict_set r k v
  end.

(** [d.get(k)] *)
Fixpoint dict_get (d : list (string * string)) (k : string) : option string :=
  match d with
  | [] => None
  | (k', v) :: r => if decide (k' = k) then Some v else dict_get r k
  end.

(** What one pass of the loop of [_load_file_contents] stores for a file. *)
Definition read_or_placeholder (f : FS) (filename : string) : string :=
  match read_text f filename with
  | Ok text => text
  | Raise e => "[Error reading file: " +:+ exn_str e +:+ "]"
  end.

Definition _load_file_contents (c : PlannerContext) (f : FS)
    : list (string * string) :=
  foldl (λ file_contents filename,
           dict_set file_contents filename (read_or_placeholder f filename))
        [] (set_iter (created_files c)).

Definition render_file (entry : string * string) : string :=
  nl +:+ "--- " +:+ entry.1 +:+ " ---" +:+ nl +:+ entry.2 +:+ nl.

Definition _build_prompt (agent : PlannerAgent) (c : PlannerContext) (f : FS)
    : list Message :=
  let file_contents := _load_file_contents c f in
  let context_message := nl +:+ "Current User Request:" +:+ nl in
  let context_message := context_message +:+ (user_input c +:+ nl +:+ nl) in
  let context_message :=
    match file_contents with
    | [] => context_message
    | _ => foldl (λ acc entry, acc +:+ render_file entry)
             (context_message +:+ ("Relevant Files:" +:+ nl)) file_contents
    end in
  let context_message :=
    context_message
    +:+ (nl +:+ "Available Files: " +:+ join ", " (set_iter (created_files c)) +:+ nl) in
  [Build_Message "system" (Some (system_prompt agent)) None;
   Build_Message "user" (Some context_message) None].

(** ** The planning round *)

(** What a pass of the loop ends with: [return s] or [continue]. *)
Inductive control :=
| Return (s : string)
| Continue.

(** The running total after one more call (the [if not context.total_usage]
    statement, lines 239 to 255). *)
Definition add_usage (total : option TokenUsage.t) (u : Usage.t)
    (thinking_time : float) : TokenUsage.t :=
  match total with
  | None =>
      TokenUsage.Build (Usage.prompt_tokens u) (Usage.completion_tokens u)
        (Usage.total_tokens u) (Usage.total_cost u) thinking_time
        (default 0 (Usage.cached_prompt_tokens u))
  | Some t =>
      TokenUsage.Build
        (TokenUsage.prompt_tokens t + Usage.prompt_tokens u)
        (TokenUsage.completion_tokens t + Usage.completion_tokens u)
        (TokenUsage.total_tokens t + Usage.total_tokens u)
        (PrimFloat.add (TokenUsage.total_cost t) (Usage.total_cost u))
        (PrimFloat.add (TokenUsage.thinking_time t) thinking_time)
        (TokenUsage.cached_prompt_tokens t
         + default 0 (Usage.cached_prompt_tokens u))
  end.

Definition handoff_warning : string :=
  "Warning: You are trying to invoke the executor without updating scratchpad.md. "
  +:+ "The executor will receive the same instructions as last time. "
  +:+ "Please update scratchpad.md with detailed instructions for the executor first.".

Definition content_warning : string :=
  "Warning: Planner should not output content directly. Please use create_file tool to write any output to files.".

(** The model call with its accounting (lines 197 to 257 of the source): the
    reply, the time it took and the usage come from the turn; the context's
    running total is updated.  The arguments passed to the model have no part
    in the model: whatever they are, the answer is the turn's. *)
Definition call_model (agent : PlannerAgent) (t : Turn) : M ChatMessage :=
  resp ← lift (response t);
  let thinking_time := elapsed t in
  let u := log_usage (usage t) thinking_time "Step" (model agent) in
  c ← get_ctx;
  modify_ctx (set_total_usage (add_usage (total_usage c) u thinking_time));;
  mret resp.

(** The dump of the response in debug mode (lines 266 to 272). *)
Definition dump_response (t : Turn) (message : ChatMessage) : M unit :=
  c ← get_ctx;
  if debug c then
    tool_calls ← match function_call message with
                 | Some fc =>
                     args ← lift (json_loads (arguments fc));
                     mret [(name fc, args)]
                 | None => mret []
                 end;
    save_response_to_file
      (if truthy (content message) then format_opt (content message) else "")
      tool_calls None "planning" (stamp t)
  else mret tt.

(** What the loop does with the reply (lines 274 to 334). *)
Definition handle_reply (message : ChatMessage) : M control :=
  if truthy (content message) then
    let content := strip (format_opt (content message)) in
    if decide (content = "TASK_COMPLETE") then mret (Return "TASK_COMPLETE")
    else if decide (content = "INVOKE_EXECUTOR") then
      c ← get_ctx;
      if decide (Some "scratchpad.md" ∉ files_changed_this_round c) then
        append_message (Build_Message "user" (Some handoff_warning) None);;
        mret Continue
      else mret (Return content)
    else
      append_message (Build_Message "user" (Some content_warning) None);;
      mret Continue
  else
    match function_call message with
    | None => mret (Return "Error: Failed to update progress tracking")
    | Some fc =>
        args ← lift (json_loads (arguments fc));
        let filename := args !! "filename" in
        let content := args !! "content" in
        on_fs (create_file filename content);;
        modify_ctx (track_file_change filename);;
        append_message
          (Build_Message "assistant" None
             (Some ("create_file", json_dumps args)));;
        append_message
          (Build_Message "user"
             (Some ("Successfully created/updated file: " +:+ format_opt filename))
             None);;
        mret Continue
    end.

(** The first half of the body of [while True]: the call, its accounting
    and, in debug mode, the dump of the response. *)
Definition receive (agent : PlannerAgent) (t : Turn) : M ChatMessage :=
  message ← call_model agent t;
  dump_response t message;;
  mret message.

(** The body of [while True]. *)
Definition loop_body (agent : PlannerAgent) (t : Turn) : M control :=
  message ← receive agent t;
  handle_reply message.

(** [while True], one turn per pass; [None] when the turns are used up and
    the loop is still running. *)
Fixpoint loop (agent : PlannerAgent) (turns : list Turn) : M (option string) :=
  match turns with
  | [] => mret None
  | t :: rest =>
      c ← loop_body agent t;
      match c with
      | Return s => mret (Some s)
      | Continue => loop agent rest
      end
  end.

(** What [plan] returns from its [except] clause. *)
Definition planning_error (e : exn) : string :=
  "Error during planning: " +:+ exn_str e.

(** The statements of [plan] before [try] (lines 185 to 193); [now] is the
    reading of the clock when the prompt is dumped. *)
Definition prepare (agent : PlannerAgent) (now : string) : M unit :=
  modify_ctx reset_file_changes;;
  c ← get_ctx;
  f ← get_fs;
  set_messages (_build_prompt agent c f);;
  msgs ← get_messages;
  if debug c then save_prompt_to_file msgs None "planning" now else mret tt.

(** [plan(context)], as a computation on the state of the round. *)
Definition plan_M (agent : PlannerAgent) (now : string) (turns : list Turn)
    : M (option string) :=
  prepare agent now;;
  try_except (loop agent turns) (λ e, mret (Some (planning_error e))).

(** [agent.plan(context)] in a file system [f].  The result is [Ok (Some s)]
    when [plan] returns [s], [Raise e] when it raises [e], and [Ok None] when
    the loop has used up the turns; with it come the context and the files as
    the call leaves them. *)
Definition plan (agent : PlannerAgent) (c : PlannerContext) (f : FS)
    (now : string) (turns : list Turn) : result (option string) * State :=
  plan_M agent now turns (Build_State c f []).

(** ** States the loop passes through *)

(** The state after the accounting of an answered call. *)
Definition accounted (agent : PlannerAgent) (t : Turn) (s : State) : State :=
  Build_State
    (set_total_usage
       (add_usage (total_usage (ctx s))
          (log_usage (usage t) (elapsed t) "Step" (model agent)) (elapsed t))
       (ctx s))
    (fs s) (messages s).

(** The two user messages the loop appends before it retries. *)
Definition handoff_retry : Message :=
  Build_Message "user" (Some handoff_warning) None.
Definition content_retry : Message :=
  Build_Message "user" (Some content_warning) None.

(** The state after a file-write request has been carried out. *)
Definition written (args : gmap string string) (f' : FS) (s : State) : State :=
  Build_State (track_file_change (args !! "filename") (ctx s)) f'
    (messages s
     ++ [Build_Message "assistant" None (Some ("create_file", json_dumps args));
         Build_Message "user"
           (Some ("Successfully created/updated file: "
                  +:+ format_opt (args !! "filename"))) None]).

(** The reply of turn [t] is a file-write request whose arguments decode
    and name the file [x]. *)
Definition writes (t : Turn) (x : option string) : Prop :=
  ∃ message fc args,
    response t = Ok message
    ∧ truthy (content message) = false
    ∧ function_call message = Some fc
    ∧ json_loads (arguments fc) = Ok args
    ∧ args !! "filename" = x.

(** ** Usage totals, as sums *)

(** The six figures of one model call. *)
Definition call_figures (agent : PlannerAgent) (t : Turn) : TokenUsage.t :=
  TokenUsage.Build
    (Usage.prompt_tokens (usage t))
    (Usage.completion_tokens (usage t))
    (Usage.total_tokens (usage t))
    (calculate_cost (Usage.prompt_tokens (usage t))
       (Usage.completion_tokens (usage t))
       (default 0 (Usage.cached_prompt_tokens (usage t))) (model agent))
    (elapsed t)
    (default 0 (Usage.cached_prompt_tokens (usage t))).

(** The componentwise sum of [x0] and the figures [l], added one after the
    other from the left. *)
Definition sum_figures (x0 : TokenUsage.t) (l : list TokenUsage.t)
    : TokenUsage.t :=
  TokenUsage.Build
    (foldl Z.add (TokenUsage.prompt_tokens x0) (TokenUsage.prompt_tokens <$> l))
    (foldl Z.add (TokenUsage.completion_tokens x0) (TokenUsage.completion_tokens <$> l))
    (foldl Z.add (TokenUsage.total_tokens x0) (TokenUsage.total_tokens <$> l))
    (foldl PrimFloat.add (TokenUsage.total_cost x0) (TokenUsage.total_cost <$> l))
    (foldl PrimFloat.add (TokenUsage.thinking_time x0) (TokenUsage.thinking_time <$> l))
    (foldl Z.add (TokenUsage.cached_prompt_tokens x0) (TokenUsage.cached_prompt_tokens <$> l)).

(** The sum of the total a context holds on entry, if any, and the figures
    of the calls made since. *)
Definition totals_after (entry : option TokenUsage.t) (figures : list TokenUsage.t)
    : option TokenUsage.t :=
  match entry, figures with
  | Some t0, _ => Some (sum_figures t0 figures)
  | None, x :: rest => Some (sum_figures x rest)
  | None, [] => None
  end.



End Planner.

(** ** The file-write tool *)

Module Tools.
(** Modelled from the spec: [tools.create_file], which is not in this file:
    the file-write side effect "persists a file's content". *)
Definition create_file (filename content : string) (f : FS) : FS :=
  <[filename := File content]> f.
End Tools.

(** ** A runtime for the examples *)

Module Demo.

Definition quote : string := String (ascii_of_nat 34) "".

(** [repr] of a string without quotes, backslashes or control characters. *)
Definition plain_repr (s : string) : string := "'" +:+ s +:+ "'".

(** The JSON text of an object with string values that need no escape. *)
Fixpoint json_fields (l : list (string * string)) : string :=
  match l with
  | [] => ""
  | [(k, v)] => quote +:+ k +:+ quote +:+ ": " +:+ quote +:+ v +:+ quote
  | (k, v) :: r =>
      quote +:+ k +:+ quote +:+ ": " +:+ quote +:+ v +:+ quote +:+ ", "
      +:+ json_fields r
  end.
Definition json_object (l : list (string * string)) : string :=
  "{" +:+ json_fields l +:+ "}".

Definition scratchpad_call : list (string * string) :=
  [("filename", "scratchpad.md"); ("content", "Step 1: search")].
Definition notes_call : list (string * string) :=
  [("filename", "notes.md"); ("content", "draft")].

(** [json.loads] on the texts the examples use: the two calls above decode
    to their objects, any other text is taken not to be JSON. *)
Definition loads (s : string) : result (gmap string string) :=
  if decide (s = json_object scratchpad_call) then Ok (list_to_map scratchpad_call)
  else if decide (s = json_object notes_call) then Ok (list_to_map notes_call)
  else Raise (Exn "JSONDecodeError" "Expecting value: line 1 column 1 (char 0)").

Definition dumps (d : gmap string string) : string :=
  json_object (map_to_list d).

Definition write (filename content : option string) (f : FS) : result FS :=
  match filename, content with
  | Some n, Some text => Ok (Tools.create_file n text f)
  | _, _ => Raise (Exn "TypeError" "expected str, bytes or os.PathLike object, not NoneType")
  end.

Definition runtime : Runtime := {|
  repr := plain_repr;
  json_loads := loads;
  json_dumps := dumps;
  json_dumps_call := λ n a, json_object [("name", n); ("arguments", a)];
  json_dumps_pretty := dumps;
  calculate_cost := λ _ _ _ _, 0.25%float;
  create_file := write;
  set_iter := elements;
  set_iter_perm := λ s, reflexivity (elements s)
|}.

Definition agent : PlannerAgent := Build_PlannerAgent "gpt-4o" "rules".

Definition context (dbg : bool) : PlannerContext :=
  PlannerContext_init [] {[ "scratchpad.md" ]} "find papers" None None dbg None.

Definition says (text : string) : Turn :=
  Build_Turn "20240101_120000" 1.5%float
    (Ok (Build_ChatMessage (Some text) None))
    (Usage.Build 100 20 120 (Some 40) 0%float).

Definition calls (l : list (string * string)) : Turn :=
  Build_Turn "20240101_120001" 2%float
    (Ok (Build_ChatMessage None
           (Some (Build_FunctionCall "create_file" (json_object l)))))
    (Usage.Build 200 50 250 None 0%float).

Definition fails : Turn :=
  Build_Turn "20240101_120002" 0.5%float
    (Raise (Exn "APIError" "rate limit reached"))
    (Usage.Build 0 0 0 None 0%float).

Definition start (dbg : bool) : State := Build_State (context dbg) ∅ [].

(** A context that enters the round with a running total. *)
Definition resumed : PlannerContext :=
  PlannerContext_init [] ∅ "find papers" None
    (Some (TokenUsage.Build 1000 200 1200 0.5%float 3%float 0)) false None.

End Demo.

(** ** More inputs for the examples *)

Module Cases.

(** A reply with prose and a file-write request at once. *)
Definition both : Turn :=
  Build_Turn "20240101_120003" 1%float
    (Ok (Build_ChatMessage (Some "Here is my plan.")
           (Some (Build_FunctionCall "create_file"
                    (Demo.json_object Demo.scratchpad_call)))))
    (Usage.Build 150 30 180 None 0%float).

(** A completion whose function call has arguments that are no JSON. *)
Definition garbled : Turn :=
  Build_Turn "20240101_120004" 1%float
    (Ok (Build_ChatMessage (Some "TASK_COMPLETE")
           (Some (Build_FunctionCall "create_file" "not json"))))
    (Usage.Build 150 30 180 None 0%float).

(** A handoff whose function call has arguments that are no JSON. *)
Definition garbled_handoff : Turn :=
  Build_Turn "20240101_120006" 1%float
    (Ok (Build_ChatMessage (Some "INVOKE_EXECUTOR")
           (Some (Build_FunctionCall "create_file" "not json"))))
    (Usage.Build 150 30 180 None 0%float).

(** Prose whose function call has arguments that are no JSON. *)
Definition garbled_prose : Turn :=
  Build_Turn "20240101_120007" 1%float
    (Ok (Build_ChatMessage (Some "Here is my plan.")
           (Some (Build_FunctionCall "create_file" "not json"))))
    (Usage.Build 150 30 180 None 0%float).





(** A text of two lines, the first ended by a carriage return. *)
Definition old_mac_text : string :=
  "Step 1: search" +:+ String (ascii_of_nat 13) "" +:+ "Step 2: read".

(** A file-write request whose arguments are no JSON. *)
Definition broken_call : Turn :=
  Build_Turn "20240101_120005" 1%float
    (Ok (Build_ChatMessage None
           (Some (Build_FunctionCall "create_file" "not json"))))
    (Usage.Build 150 30 180 None 0%float).

(** A file-write request that gives a content and no file name. *)
Definition untitled_call : list (string * string) := [("content", "draft")].

Definition loads (s : string) : result (gmap string string) :=
  if decide (s = Demo.json_object untitled_call)
  then Ok (list_to_map untitled_call)
  else Demo.loads s.

(** A file-write tool that reports a missing name in its result and does
    not raise. *)
Definition write (filename content : option string) (f : FS) : result FS :=
  match filename, content with
  | Some n, Some text => Ok (Tools.create_file n text f)
  | _, _ => Ok f
  end.

Definition lenient : Runtime := {|
  repr := Demo.plain_repr;
  json_loads := loads;
  json_dumps := Demo.dumps;
  json_dumps_call := λ n a, Demo.json_object [("name", n); ("arguments", a)];
  json_dumps_pretty := Demo.dumps;
  calculate_cost := λ _ _ _ _, 0.25%float;
  create_file := write;
  set_iter := elements;
  set_iter_perm := λ s, reflexivity (elements s)
|}.

(** A state in which the scratchpad has been written in the round. *)
Definition scratchpad_written : State :=
  Build_State (track_file_change (Some "scratchpad.md") (Demo.context false))
    {[ "scratchpad.md" := File "Step 1: search" ]} [].

End Cases.

(** * Properties *)

Section Properties.
Context {rt : Runtime}.

(** ** Strings and dicts *)

Lemma str_app_cons a (s t : string) : String a s +:+ t = String a (s +:+ t).
Proof. reflexivity. Qed.

Lemma str_app_assoc (a b c : string) : (a +:+ b) +:+ c = a +:+ (b +:+ c).
Proof.
  induction a as [|x a IH]; [reflexivity|].
  rewrite !str_app_cons. by rewrite IH.
Qed.

Lemma set_iter_elem (s : gset string) (k : string) : k ∈ set_iter s ↔ k ∈ s.
Proof. rewrite (set_iter_perm s). apply elem_of_elements. Qed.

Lemma set_iter_NoDup (s : gset string) : NoDup (set_iter s).
Proof. rewrite (set_iter_perm s). apply NoDup_elements. Qed.

Lemma dict_set_fresh (d : list (string * string)) (k v : string) :
  k ∉ d.*1 → dict_set d k v = d ++ [(k, v)].
Proof.
  induction d as [|[k' v'] d IH]; intros Hk; [reflexivity|].
  cbn in *. apply not_elem_of_cons in Hk as [Hne Hk].
  destruct (decide (k' = k)) as [->|_]; [done|]. by rewrite IH.
Qed.

Lemma fill_dict_fresh (g : string → string) (keys : list string)
    (d : list (string * string)) :
  NoDup (d.*1 ++ keys) →
  foldl (λ acc k, dict_set acc k (g k)) d keys
  = d ++ ((λ k, (k, g k)) <$> keys).
Proof.
  revert d. induction keys as [|k keys IH]; intros d Hnd; cbn.
  - by rewrite app_nil_r.
  - apply NoDup_app in Hnd as (Hd & Hdisj & Hkeys).
    rewrite dict_set_fresh; [|intros Hin; eapply Hdisj; [done|left]].
    rewrite IH.
    + by rewrite <- app_assoc.
    + rewrite fmap_app. cbn. rewrite <- app_assoc. cbn.
      apply NoDup_app. split_and!; [done| |done].
      intros x Hx Hin. apply (Hdisj x Hx). done.
Qed.

Lemma dict_get_fmap (g : string → string) (keys : list string) (k : string) :
  k ∈ keys → dict_get ((λ k, (k, g k)) <$> keys) k = Some (g k).
Proof.
  induction keys as [|k' keys IH]; intros Hin; [by apply elem_of_nil in Hin|].
  cbn. destruct (decide (k' = k)) as [->|Hne]; [done|].
  apply elem_of_cons in Hin as [->|Hin]; [done|]. by apply IH.
Qed.

(** The loaded contents, in closed form: one entry per created file, in the
    order of iteration. *)
Lemma load_file_contents_eq (c : PlannerContext) (f : FS) :
  _load_file_contents c f
  = (λ k, (k, read_or_placeholder f k)) <$> set_iter (created_files c).
Proof.
  unfold _load_file_contents.
  rewrite (fill_dict_fresh (read_or_placeholder f)); [done|].
  cbn. apply set_iter_NoDup.
Qed.

Lemma str_app_nil_r (s : string) : s +:+ "" = s.
Proof. induction s as [|a s IH]; [done|]. by rewrite str_app_cons, IH. Qed.

Lemma foldl_render (entries : list (string * string)) (init : string) :
  foldl (λ acc x, acc +:+ render_file x) init entries
  = init +:+ foldr (λ x acc, render_file x +:+ acc) "" entries.
Proof.
  revert init. induction entries as [|x entries IH]; intros init; cbn.
  - by rewrite str_app_nil_r.
  - by rewrite IH, str_app_assoc.
Qed.

Lemma foldr_render_app (l1 l2 : list (string * string)) :
  foldr (λ x acc, render_file x +:+ acc) "" (l1 ++ l2)
  = foldr (λ x acc, render_file x +:+ acc) "" l1
    +:+ foldr (λ x acc, render_file x +:+ acc) "" l2.
Proof.
  induction l1 as [|x l1 IH]; cbn; [done|]. by rewrite IH, str_app_assoc.
Qed.

Lemma rendered_files_contain (entries : list (string * string))
    (e : string * string) (init : string) :
  e ∈ entries →
  ∃ pre post,
    foldl (λ acc x, acc +:+ render_file x) init entries
    = pre +:+ render_file e +:+ post.
Proof.
  intros (l1 & l2 & ->)%list_elem_of_split.
  exists (init +:+ foldr (λ x acc, render_file x +:+ acc) "" l1),
         (foldr (λ x acc, render_file x +:+ acc) "" l2).
  by rewrite foldl_render, foldr_render_app, str_app_assoc.
Qed.

Lemma filter_absent {A} `{EqDecision A} (l : list A) (x : A) :
  x ∉ l → filter (λ y, y = x) l = [].
Proof.
  induction l as [|y l IH]; intros Hx; [done|].
  apply not_elem_of_cons in Hx as [Hne Hx].
  rewrite filter_cons. destruct (decide (y = x)); [congruence|]. by apply IH.
Qed.

Lemma occurs_once {A} `{EqDecision A} (l : list A) (x : A) :
  NoDup l → x ∈ l → length (filter (λ y, y = x) l) = 1%nat.
Proof.
  induction 1 as [|y l Hy Hnd IH]; intros Hin; [by apply elem_of_nil in Hin|].
  rewrite filter_cons. destruct (decide (y = x)) as [->|Hne].
  - by rewrite filter_absent.
  - apply elem_of_cons in Hin as [->|Hin]; [done|]. by apply IH.
Qed.

Lemma filter_key_fmap (g : string → string) (keys : list string) (k : string) :
  length (filter (λ entry : string * string, entry.1 = k) ((λ k, (k, g k)) <$> keys))
  = length (filter (λ y, y = k) keys).
Proof.
  induction keys as [|y keys IH]; [done|].
  rewrite fmap_cons, !filter_cons. cbn.
  destruct (decide (y = k)); cbn; by rewrite IH.
Qed.

Lemma keys_of_fmap (g : string → string) (keys : list string) :
  ((λ k, (k, g k)) <$> keys).*1 = keys.
Proof. induction keys as [|k keys IH]; [done|]. cbn. by rewrite IH. Qed.

(** ** Construction and prompt building *)

(** An entry of the loaded contents is shown in the user message, between
    its header line and a newline. *)
Lemma prompt_shows_entry (agent : PlannerAgent) (c : PlannerContext) (f : FS)
    (filename text : string) :
  (filename, text) ∈ _load_file_contents c f →
  ∃ pre post,
    _build_prompt agent c f
    = [Build_Message "system" (Some (system_prompt agent)) None;
       Build_Message "user"
         (Some (pre
                +:+ (nl +:+ "--- " +:+ filename +:+ " ---" +:+ nl +:+ text +:+ nl)
                +:+ post)) None].
Proof.
  intros Hentry. unfold _build_prompt.
  destruct (_load_file_contents c f) as [|x l] eqn:Hl;
    [by apply elem_of_nil in Hentry|].
  cbv zeta.
  match goal with
  | |- context [foldl _ ?init (x :: l)] =>
      destruct (rendered_files_contain (x :: l) _ init Hentry)
        as (pre & post & Heq)
  end.
  eexists pre, _. rewrite Heq. unfold render_file. cbn [fst snd].
  rewrite (str_app_assoc pre). rewrite (str_app_assoc _ post). done.
Qed.

(** C7: constructing the agent when [.plannerrules] does not exist fails
    with a [FileNotFoundError]; when it is a file, construction succeeds and
    the system prompt is the file's text as read (line ends translated, then
    stripped), a newline and the sentence carrying today's date. *)
Theorem construction_requires_rules_file (today : string) (f : FS) (mdl : string) :
  (f !! ".plannerrules" = None →
   PlannerAgent_init today f mdl
   = Raise (Exn "FileNotFoundError" "Required .plannerrules file not found"))
  ∧ (∀ text, f !! ".plannerrules" = Some (File text) →
     PlannerAgent_init today f mdl
     = Ok (Build_PlannerAgent mdl
             (strip (universal_newlines text) +:+ nl
              +:+ "You are the Planner agent in a multi-agent research system. Today's date is "
              +:+ today
              +:+ ". Take this into consideration when you plan tasks and analyze progress."))).
Proof.
  unfold PlannerAgent_init, _load_system_prompt, path_exists, read_text, open_read.
  split.
  - by intros ->.
  - by intros text ->.
Qed.

(** C8: a created file whose read raises [e] does not stop the prompt from
    being built: the loaded contents map it to the text
    [[Error reading file: <str(e)>]], that text is what the user message shows
    for the file, and the loaded contents hold exactly one entry for each
    created file and none for any other name. *)
Theorem read_failure_becomes_placeholder (agent : PlannerAgent)
    (c : PlannerContext) (f : FS) (filename : string) (e : exn) :
  filename ∈ created_files c →
  open_read f filename = Raise e →
  dict_get (_load_file_contents c f) filename
  = Some ("[Error reading file: " +:+ exn_str e +:+ "]")
  ∧ (∃ pre post,
       _build_prompt agent c f
       = [Build_Message "system" (Some (system_prompt agent)) None;
          Build_Message "user"
            (Some (pre
                   +:+ (nl +:+ "--- " +:+ filename +:+ " ---" +:+ nl
                        +:+ ("[Error reading file: " +:+ exn_str e +:+ "]") +:+ nl)
                   +:+ post)) None])
  ∧ (∀ k, k ∈ created_files c →
       length (filter (λ entry : string * string, entry.1 = k)
                 (_load_file_contents c f)) = 1%nat)
  ∧ (∀ k, k ∈ (_load_file_contents c f).*1 ↔ k ∈ created_files c).
Proof.
  intros Hin Hread.
  assert (Hget : dict_get (_load_file_contents c f) filename
                 = Some ("[Error reading file: " +:+ exn_str e +:+ "]")).
  { rewrite load_file_contents_eq, dict_get_fmap by by apply set_iter_elem.
    unfold read_or_placeholder, read_text. by rewrite Hread. }
  split_and!.
  - done.
  - apply prompt_shows_entry. rewrite load_file_contents_eq.
    apply list_elem_of_fmap. exists filename. split; [|by apply set_iter_elem].
    unfold read_or_placeholder, read_text. by rewrite Hread.
  - intros k Hk. rewrite load_file_contents_eq, filter_key_fmap.
    apply occurs_once; [apply set_iter_NoDup|by apply set_iter_elem].
  - intros k. rewrite load_file_contents_eq, keys_of_fmap. apply set_iter_elem.
Qed.

Lemma translate_without_cr (s : string) :
  has_cr s = false → universal_newlines s = s.
Proof.
  unfold universal_newlines. induction s as [|a s IH]; [done|]. cbn.
  destruct (Ascii.eqb a (ascii_of_nat 13)); [done|]. cbn. intros Hs.
  destruct (Ascii.eqb a (ascii_of_nat 10)) eqn:Ha.
  - apply Ascii.eqb_eq in Ha as ->. by rewrite (IH Hs).
  - by rewrite (IH Hs).
Qed.

(** C5, as the code has it: after [create_file] has written [text] to
    [filename] (whatever the file held before), a prompt built for a context
    whose created files include [filename] loads for it the text as reading
    gives it, that is with every carriage return and line feed pair, and every
    other carriage return, turned into a line feed, and shows that in the user
    message under the file's header line; a text without carriage returns is
    shown verbatim. *)
Theorem written_file_shown_in_next_prompt (agent : PlannerAgent)
    (c : PlannerContext) (f : FS) (filename text : string) :
  filename ∈ created_files c →
  dict_get (_load_file_contents c (Tools.create_file filename text f)) filename
  = Some (universal_newlines text)
  ∧ (∃ pre post,
       _build_prompt agent c (Tools.create_file filename text f)
       = [Build_Message "system" (Some (system_prompt agent)) None;
          Build_Message "user"
            (Some (pre
                   +:+ (nl +:+ "--- " +:+ filename +:+ " ---" +:+ nl
                        +:+ universal_newlines text +:+ nl)
                   +:+ post)) None])
  ∧ (has_cr text = false → universal_newlines text = text).
Proof.
  intros Hin.
  assert (Hread : read_or_placeholder (Tools.create_file filename text f) filename
                  = universal_newlines text).
  { unfold read_or_placeholder, read_text, open_read, Tools.create_file.
    by rewrite lookup_insert_eq. }
  split_and!.
  - rewrite load_file_contents_eq, dict_get_fmap by by apply set_iter_elem.
    by rewrite Hread.
  - apply prompt_shows_entry. rewrite load_file_contents_eq.
    apply list_elem_of_fmap. exists filename.
    split; [by rewrite Hread|by apply set_iter_elem].
  - apply translate_without_cr.
Qed.

(** ** One pass of the loop *)

Ltac unfold_M :=
  unfold mbind, M_bind, mret, M_ret, raise, lift, get_ctx, get_fs,
    get_messages, modify_ctx, set_messages, append_message, on_fs,
    try_except in *.

Lemma bind_Ok {A B} (m : M A) (k : A → M B) (s s1 : State) (a : A) :
  m s = (Ok a, s1) → (x ← m; k x) s = k a s1.
Proof. intros Hm. unfold mbind, M_bind. by rewrite Hm. Qed.

Lemma bind_Raise {A B} (m : M A) (k : A → M B) (s s1 : State) (e : exn) :
  m s = (Raise e, s1) → (x ← m; k x) s = (Raise e, s1).
Proof. intros Hm. unfold mbind, M_bind. by rewrite Hm. Qed.

Lemma call_model_Ok (agent : PlannerAgent) (t : Turn) (s : State)
    (message : ChatMessage) :
  response t = Ok message →
  call_model agent t s = (Ok message, accounted agent t s).
Proof. intros Hr. unfold call_model. unfold_M. by rewrite Hr. Qed.

Lemma call_model_Raise (agent : PlannerAgent) (t : Turn) (s : State) (e : exn) :
  response t = Raise e → call_model agent t s = (Raise e, s).
Proof. intros Hr. unfold call_model. unfold_M. by rewrite Hr. Qed.

Lemma ensure_prompts_dir_frame (s : State) :
  ∃ f', ensure_prompts_dir s = (Ok tt, Build_State (ctx s) f' (messages s)).
Proof.
  unfold ensure_prompts_dir. unfold_M. destruct s as [c f l]; cbn.
  destruct (path_exists f "prompts"); eauto.
Qed.

(** The dumps touch the files only. *)
Lemma save_response_to_file_frame resp calls rt0 step now (s : State) r s' :
  save_response_to_file resp calls rt0 step now s = (r, s') →
  ctx s' = ctx s ∧ messages s' = messages s.
Proof.
  unfold save_response_to_file.
  destruct (ensure_prompts_dir_frame s) as [f' Hdir].
  unfold mbind, M_bind at 1. rewrite Hdir. unfold on_fs. cbn.
  destruct (open_write _ _ f'); intros [= <- <-]; done.
Qed.

Lemma save_prompt_to_file_frame msgs rt0 step now (s : State) r s' :
  save_prompt_to_file msgs rt0 step now s = (r, s') →
  ctx s' = ctx s ∧ messages s' = messages s.
Proof.
  unfold save_prompt_to_file.
  destruct (ensure_prompts_dir_frame s) as [f' Hdir].
  unfold mbind, M_bind at 1. rewrite Hdir. unfold on_fs. cbn.
  destruct (open_write _ _ f'); intros [= <- <-]; done.
Qed.

Lemma dump_response_frame (t : Turn) (message : ChatMessage) (s : State) r s' :
  dump_response t message s = (r, s') →
  ctx s' = ctx s ∧ messages s' = messages s.
Proof.
  unfold dump_response. unfold_M.
  destruct (debug (ctx s)); [|by intros [= <- <-]].
  destruct (function_call message) as [fc|].
  - destruct (json_loads (arguments fc)); [|by intros [= <- <-]].
    apply save_response_to_file_frame.
  - apply save_response_to_file_frame.
Qed.

(** What [receive] leaves behind: when the model answers, the context with
    the call accounted for, and the message list as it was. *)
Lemma receive_inv (agent : PlannerAgent) (t : Turn) (s : State) r s' :
  receive agent t s = (r, s') →
  match response t with
  | Raise e => r = Raise e ∧ s' = s
  | Ok message =>
      (r = Ok message ∨ ∃ e, r = Raise e)
      ∧ ctx s' = ctx (accounted agent t s) ∧ messages s' = messages s
  end.
Proof.
  unfold receive. destruct (response t) as [message|e] eqn:Hr.
  - rewrite (bind_Ok _ _ _ _ _ (call_model_Ok agent t s message Hr)).
    unfold mbind, M_bind.
    destruct (dump_response t message (accounted agent t s)) as [[[]|e] s1] eqn:Hd;
      apply dump_response_frame in Hd as [Hc Hm];
      intros [= <- <-]; split_and!; eauto.
  - rewrite (bind_Raise _ _ _ _ _ (call_model_Raise agent t s e Hr)).
    by intros [= <- <-].
Qed.

Lemma strip_TASK_COMPLETE : strip "TASK_COMPLETE" = "TASK_COMPLETE".
Proof. reflexivity. Qed.

Lemma strip_INVOKE_EXECUTOR : strip "INVOKE_EXECUTOR" = "INVOKE_EXECUTOR".
Proof. reflexivity. Qed.

Lemma strip_empty : strip "" = "".
Proof. reflexivity. Qed.

Lemma handle_reply_handoff_rejected (message : ChatMessage) (text : string)
    (s : State) :
  content message = Some text →
  strip text = "INVOKE_EXECUTOR" →
  Some "scratchpad.md" ∉ files_changed_this_round (ctx s) →
  handle_reply message s
  = (Ok Continue, Build_State (ctx s) (fs s) (messages s ++ [handoff_retry])).
Proof.
  intros Hc Hs Hguard. unfold handle_reply. rewrite Hc.
  destruct text as [|a text]; [by rewrite strip_empty in Hs|].
  cbn [truthy format_opt]. rewrite Hs.
  destruct (decide ("INVOKE_EXECUTOR" = "TASK_COMPLETE")) as [[=]|_].
  destruct (decide ("INVOKE_EXECUTOR" = "INVOKE_EXECUTOR")) as [_|[]]; [|done].
  unfold_M. by destruct (decide _).
Qed.

Lemma handle_reply_other_text (message : ChatMessage) (text : string)
    (s : State) :
  content message = Some text →
  text ≠ "" →
  strip text ≠ "TASK_COMPLETE" →
  strip text ≠ "INVOKE_EXECUTOR" →
  handle_reply message s
  = (Ok Continue, Build_State (ctx s) (fs s) (messages s ++ [content_retry])).
Proof.
  intros Hc Hne H1 H2. unfold handle_reply. rewrite Hc.
  destruct text as [|a text]; [done|].
  cbn [truthy format_opt].
  destruct (decide _) as [?|_]; [done|].
  destruct (decide _) as [?|_]; [done|].
  reflexivity.
Qed.


Lemma handle_reply_write (message : ChatMessage) (fc : FunctionCall)
    (args : gmap string string) (f' : FS) (s : State) :
  truthy (content message) = false →
  function_call message = Some fc →
  json_loads (arguments fc) = Ok args →
  create_file (args !! "filename") (args !! "content") (fs s) = Ok f' →
  handle_reply message s = (Ok Continue, written args f' s).
Proof.
  intros Ht Hf Hj Hw. unfold handle_reply. rewrite Ht, Hf.
  unfold_M. rewrite Hj. cbn. rewrite Hw. cbn.
  unfold written. by rewrite <- app_assoc.
Qed.

(** When the handling of a reply makes the loop return, the state is as it
    was, and the returned text is one of three. *)
Lemma handle_reply_Return (message : ChatMessage) (s s' : State) (x : string) :
  handle_reply message s = (Ok (Return x), s') →
  s' = s
  ∧ (x = "TASK_COMPLETE"
     ∨ (x = "INVOKE_EXECUTOR"
        ∧ Some "scratchpad.md" ∈ files_changed_this_round (ctx s))
     ∨ x = "Error: Failed to update progress tracking").
Proof.
  unfold handle_reply. destruct (truthy (content message)).
  - destruct (decide _) as [_|_]; [intros [= <- <-]; auto|].
    destruct (decide _) as [Heq|_]; [|by unfold_M].
    unfold_M. destruct (decide _) as [?|Hin]; [done|].
    intros [= <- <-]. split; [done|]. right; left. split; [done|].
    by destruct (decide (Some "scratchpad.md"
                           ∈ files_changed_this_round (ctx s))).
  - destruct (function_call message) as [fc|]; [|intros [= <- <-]; auto].
    unfold_M. destruct (json_loads (arguments fc)) as [args|]; [|done].
    cbn. by destruct (create_file _ _ _).
Qed.

(** Handling a reply leaves the created files and the usage total alone and
    only adds to the changed files. *)
Lemma handle_reply_frame (message : ChatMessage) (s : State) r s' :
  handle_reply message s = (r, s') →
  created_files (ctx s') = created_files (ctx s)
  ∧ total_usage (ctx s') = total_usage (ctx s)
  ∧ files_changed_this_round (ctx s) ⊆ files_changed_this_round (ctx s').
Proof.
  unfold handle_reply. destruct (truthy (content message)).
  - destruct (decide _) as [_|_]; [by intros [= <- <-]|].
    destruct (decide _) as [_|_]; [|by intros [= <- <-]].
    unfold_M. destruct (decide _); by intros [= <- <-].
  - destruct (function_call message) as [fc|]; [|by intros [= <- <-]].
    unfold_M. destruct (json_loads (arguments fc)) as [args|]; [|by intros [= <- <-]].
    cbn. destruct (create_file _ _ _); intros [= <- <-]; cbn; [|done].
    split_and!; [done|done|set_solver].
Qed.

Lemma receive_Ok_inv (agent : PlannerAgent) (t : Turn) (s s1 : State)
    (message : ChatMessage) :
  receive agent t s = (Ok message, s1) →
  response t = Ok message
  ∧ ctx s1 = ctx (accounted agent t s) ∧ messages s1 = messages s.
Proof.
  intros Hr. apply receive_inv in Hr.
  destruct (response t) as [m|e].
  - destruct Hr as ([[= ->]|[e [=]]] & Hc & Hm). done.
  - by destruct Hr as [[=] _].
Qed.

(** A pass whose call is answered: the dump of the response, then the
    handling of the reply, unless the dump raises. *)
Lemma loop_body_answered (agent : PlannerAgent) (t : Turn) (s : State)
    (message : ChatMessage) :
  response t = Ok message →
  loop_body agent t s
  = match dump_response t message (accounted agent t s) with
    | (Ok _, s1) => handle_reply message s1
    | (Raise e, s1) => (Raise e, s1)
    end.
Proof.
  intros Hr. unfold loop_body, receive, mbind, M_bind.
  rewrite (call_model_Ok agent t s message Hr).
  by destruct (dump_response t message (accounted agent t s)) as [[[]|e] s1].
Qed.

Lemma dump_response_no_debug (t : Turn) (message : ChatMessage) (s : State) :
  debug (ctx s) = false → dump_response t message s = (Ok tt, s).
Proof. intros Hd. unfold dump_response. unfold_M. by rewrite Hd. Qed.

Lemma loop_body_received (agent : PlannerAgent) (t : Turn) (s s1 : State)
    (message : ChatMessage) :
  receive agent t s = (Ok message, s1) →
  loop_body agent t s = handle_reply message s1.
Proof. intros Hr. unfold loop_body. by rewrite (bind_Ok _ _ _ _ _ Hr). Qed.

Lemma loop_Continue (agent : PlannerAgent) (t : Turn) (rest : list Turn)
    (s s2 : State) :
  loop_body agent t s = (Ok Continue, s2) →
  loop agent (t :: rest) s = loop agent rest s2.
Proof. intros Hb. cbn [loop]. by rewrite (bind_Ok _ _ _ _ _ Hb). Qed.

Lemma loop_Return (agent : PlannerAgent) (t : Turn) (rest : list Turn)
    (s s2 : State) (x : string) :
  loop_body agent t s = (Ok (Return x), s2) →
  loop agent (t :: rest) s = (Ok (Some x), s2).
Proof. intros Hb. cbn [loop]. by rewrite (bind_Ok _ _ _ _ _ Hb). Qed.

Lemma loop_Raise (agent : PlannerAgent) (t : Turn) (rest : list Turn)
    (s s2 : State) (e : exn) :
  loop_body agent t s = (Raise e, s2) →
  loop agent (t :: rest) s = (Raise e, s2).
Proof. intros Hb. cbn [loop]. by rewrite (bind_Raise _ _ _ _ _ Hb). Qed.

(** What a pass leaves of the context: the created files as they were, the
    changed files at least those there were. *)
Lemma loop_body_frame (agent : PlannerAgent) (t : Turn) (s : State) r s' :
  loop_body agent t s = (r, s') →
  created_files (ctx s') = created_files (ctx s)
  ∧ files_changed_this_round (ctx s) ⊆ files_changed_this_round (ctx s').
Proof.
  unfold loop_body. unfold mbind, M_bind.
  destruct (receive agent t s) as [[message|e] s1] eqn:Hr.
  - apply receive_Ok_inv in Hr as (_ & Hc & _).
    intros (H1 & _ & H3)%handle_reply_frame.
    rewrite Hc in H1, H3. done.
  - apply receive_inv in Hr. intros [= <- <-].
    destruct (response t); [|by destruct Hr as [_ ->]].
    destruct Hr as (_ & -> & _). done.
Qed.

Lemma loop_body_Return (agent : PlannerAgent) (t : Turn) (s s' : State)
    (x : string) :
  loop_body agent t s = (Ok (Return x), s') →
  x = "TASK_COMPLETE"
  ∨ (x = "INVOKE_EXECUTOR"
     ∧ Some "scratchpad.md" ∈ files_changed_this_round (ctx s'))
  ∨ x = "Error: Failed to update progress tracking".
Proof.
  unfold loop_body. unfold mbind, M_bind.
  destruct (receive agent t s) as [[message|e] s1]; [|done].
  intros [-> Hx]%handle_reply_Return. done.
Qed.

(** ** The round *)

Lemma plan_unfold (agent : PlannerAgent) (c : PlannerContext) (f : FS)
    (now : string) (turns : list Turn) :
  plan agent c f now turns
  = match prepare agent now (Build_State c f []) with
    | (Raise e, s0) => (Raise e, s0)
    | (Ok _, s0) =>
        match loop agent turns s0 with
        | (Ok o, s') => (Ok o, s')
        | (Raise e, s') => (Ok (Some (planning_error e)), s')
        end
    end.
Proof.
  unfold plan, plan_M, mbind, M_bind, try_except.
  destruct (prepare agent now _) as [[[]|e] s0]; [|done].
  by destruct (loop agent turns s0) as [[o|e] s'].
Qed.

Lemma prepare_inv (agent : PlannerAgent) (now : string) (s : State) r s0 :
  prepare agent now s = (r, s0) →
  ctx s0 = reset_file_changes (ctx s)
  ∧ messages s0 = _build_prompt agent (reset_file_changes (ctx s)) (fs s)
  ∧ (debug (ctx s) = false → r = Ok tt ∧ fs s0 = fs s).
Proof.
  unfold prepare. unfold_M. cbn.
  destruct (debug (ctx s)) eqn:Hd.
  - intros [Hc Hm]%save_prompt_to_file_frame. cbn in Hc, Hm. done.
  - by intros [= <- <-].
Qed.

Lemma planning_error_not_handoff (e : exn) :
  planning_error e ≠ "INVOKE_EXECUTOR".
Proof. unfold planning_error. intros Heq. vm_compute in Heq. discriminate. Qed.

Lemma loop_handoff_guard (agent : PlannerAgent) (turns : list Turn)
    (s s' : State) :
  loop agent turns s = (Ok (Some "INVOKE_EXECUTOR"), s') →
  Some "scratchpad.md" ∈ files_changed_this_round (ctx s').
Proof.
  revert s. induction turns as [|t rest IH]; intros s; [done|].
  destruct (loop_body agent t s) as [[[x|]|e] s2] eqn:Hb.
  - rewrite (loop_Return _ _ _ _ _ _ Hb). intros [= -> ->].
    apply loop_body_Return in Hb as [[=]|[[_ ?]|[=]]]. done.
  - rewrite (loop_Continue _ _ _ _ _ Hb). apply IH.
  - by rewrite (loop_Raise _ _ _ _ _ _ Hb).
Qed.

Lemma plan_handoff_guard (agent : PlannerAgent) (c : PlannerContext) (f : FS)
    (now : string) (turns : list Turn) (s' : State) :
  plan agent c f now turns = (Ok (Some "INVOKE_EXECUTOR"), s') →
  Some "scratchpad.md" ∈ files_changed_this_round (ctx s').
Proof.
  rewrite plan_unfold.
  destruct (prepare agent now _) as [[[]|e] s0]; [|done].
  destruct (loop agent turns s0) as [[o|e] s2] eqn:Hl.
  - intros [= -> ->]. by eapply loop_handoff_guard.
  - intros Heq. exfalso. apply (planning_error_not_handoff e). congruence.
Qed.

Lemma loop_frame (agent : PlannerAgent) (turns : list Turn) (s : State) r s' :
  loop agent turns s = (r, s') →
  created_files (ctx s') = created_files (ctx s).
Proof.
  revert s. induction turns as [|t rest IH]; intros s; [by intros [= <- <-]|].
  destruct (loop_body agent t s) as [[[x|]|e] s2] eqn:Hb;
    pose proof (loop_body_frame _ _ _ _ _ Hb) as [Hc _].
  - rewrite (loop_Return _ _ _ _ _ _ Hb). by intros [= <- <-].
  - rewrite (loop_Continue _ _ _ _ _ Hb). intros Hl%IH. congruence.
  - rewrite (loop_Raise _ _ _ _ _ _ Hb). by intros [= <- <-].
Qed.

(** ** The claims about the handling of replies *)

(** C1, as the code has it: when [scratchpad.md] is not among the files
    changed in the round, a reply of the model whose text is
    [INVOKE_EXECUTOR] is never returned.  When the dump of the response does
    not raise, and outside debug mode it never does, the pass ends with
    [continue], with the warning appended to the message list as a user
    message, and the loop goes on with the next turn.  When the dump raises,
    no warning is appended and the exception ends the round with the text
    [Error during planning: <str(e)>].  Whenever [plan] does return
    [INVOKE_EXECUTOR], [scratchpad.md] is among the files changed in the
    round. *)
Theorem handoff_without_scratchpad_rejected (agent : PlannerAgent) (t : Turn)
    (rest : list Turn) (s : State) (message : ChatMessage) :
  response t = Ok message →
  content message = Some "INVOKE_EXECUTOR" →
  Some "scratchpad.md" ∉ files_changed_this_round (ctx s) →
  (∀ x s', loop_body agent t s ≠ (Ok (Return x), s'))
  ∧ (∀ s1, dump_response t message (accounted agent t s) = (Ok tt, s1) →
       loop_body agent t s
       = (Ok Continue,
          Build_State (ctx s1) (fs s1) (messages s ++ [handoff_retry]))
       ∧ loop agent (t :: rest) s
         = loop agent rest
             (Build_State (ctx s1) (fs s1) (messages s ++ [handoff_retry])))
  ∧ (∀ e s1, dump_response t message (accounted agent t s) = (Raise e, s1) →
       messages s1 = messages s
       ∧ try_except (loop agent (t :: rest))
           (λ e, mret (Some (planning_error e))) s
         = (Ok (Some ("Error during planning: " +:+ exn_str e)), s1))
  ∧ (debug (ctx s) = false →
     dump_response t message (accounted agent t s)
     = (Ok tt, accounted agent t s))
  ∧ ∀ c f now turns s',
      plan agent c f now turns = (Ok (Some "INVOKE_EXECUTOR"), s') →
      Some "scratchpad.md" ∈ files_changed_this_round (ctx s').
Proof.
  intros Hr Hc Hguard.
  pose proof (loop_body_answered agent t s message Hr) as Hbody.
  assert (Hok : ∀ s1,
            dump_response t message (accounted agent t s) = (Ok tt, s1) →
            loop_body agent t s
            = (Ok Continue,
               Build_State (ctx s1) (fs s1) (messages s ++ [handoff_retry]))).
  { intros s1 Hd. rewrite Hbody, Hd.
    apply dump_response_frame in Hd as [Hctx Hm]. cbn in Hm. rewrite <- Hm.
    apply (handle_reply_handoff_rejected _ "INVOKE_EXECUTOR");
      [done|apply strip_INVOKE_EXECUTOR|by rewrite Hctx]. }
  split_and!.
  - intros x s' Hb.
    destruct (dump_response t message (accounted agent t s)) as [[[]|e] s1] eqn:Hd.
    + rewrite (Hok s1 eq_refl) in Hb. done.
    + rewrite Hbody in Hb. done.
  - intros s1 Hd. split; [by apply Hok|by apply loop_Continue, Hok].
  - intros e s1 Hd. split.
    + by apply dump_response_frame in Hd as [_ Hm].
    + unfold try_except. rewrite (loop_Raise agent t rest s s1 e); [done|].
      by rewrite Hbody, Hd.
  - intros Hd. by apply dump_response_no_debug.
  - intros c f now turns s'. apply plan_handoff_guard.
Qed.

(** C2, as the code has it: a reply of the model whose text is not empty
    and, once stripped of surrounding whitespace, is neither [TASK_COMPLETE]
    nor [INVOKE_EXECUTOR] is never returned.  When the dump of the response
    does not raise, and outside debug mode it never does, the pass ends with
    [continue], with the warning appended to the message list as a user
    message, and the loop goes on with the next turn.  When the dump raises,
    no warning is appended and the exception ends the round with the text
    [Error during planning: <str(e)>]. *)
Theorem other_text_is_retried (agent : PlannerAgent) (t : Turn)
    (rest : list Turn) (s : State) (message : ChatMessage) (text : string) :
  response t = Ok message →
  content message = Some text →
  text ≠ "" →
  strip text ≠ "TASK_COMPLETE" →
  strip text ≠ "INVOKE_EXECUTOR" →
  (∀ x s', loop_body agent t s ≠ (Ok (Return x), s'))
  ∧ (∀ s1, dump_response t message (accounted agent t s) = (Ok tt, s1) →
       loop_body agent t s
       = (Ok Continue,
          Build_State (ctx s1) (fs s1) (messages s ++ [content_retry]))
       ∧ loop agent (t :: rest) s
         = loop agent rest
             (Build_State (ctx s1) (fs s1) (messages s ++ [content_retry])))
  ∧ (∀ e s1, dump_response t message (accounted agent t s) = (Raise e, s1) →
       messages s1 = messages s
       ∧ try_except (loop agent (t :: rest))
           (λ e, mret (Some (planning_error e))) s
         = (Ok (Some ("Error during planning: " +:+ exn_str e)), s1))
  ∧ (debug (ctx s) = false →
     dump_response t message (accounted agent t s)
     = (Ok tt, accounted agent t s)).
Proof.
  intros Hr Hc Hne H1 H2.
  pose proof (loop_body_answered agent t s message Hr) as Hbody.
  assert (Hok : ∀ s1,
            dump_response t message (accounted agent t s) = (Ok tt, s1) →
            loop_body agent t s
            = (Ok Continue,
               Build_State (ctx s1) (fs s1) (messages s ++ [content_retry]))).
  { intros s1 Hd. rewrite Hbody, Hd.
    apply dump_response_frame in Hd as [_ Hm]. cbn in Hm. rewrite <- Hm.
    by apply (handle_reply_other_text _ text). }
  split_and!.
  - intros x s' Hb.
    destruct (dump_response t message (accounted agent t s)) as [[[]|e] s1] eqn:Hd.
    + rewrite (Hok s1 eq_refl) in Hb. done.
    + rewrite Hbody in Hb. done.
  - intros s1 Hd. split; [by apply Hok|by apply loop_Continue, Hok].
  - intros e s1 Hd. split.
    + by apply dump_response_frame in Hd as [_ Hm].
    + unfold try_except. rewrite (loop_Raise agent t rest s s1 e); [done|].
      by rewrite Hbody, Hd.
  - intros Hd. by apply dump_response_no_debug.
Qed.

(** C4: when a file-write request is carried out (the arguments decode and
    [create_file] returns), the pass ends with [continue] and the file name
    has been added to the set of files changed in the round: it is a member
    of the set and is listed once among its elements, also when it was in the
    set before, in which case the set is as it was. *)
Theorem written_file_tracked_once (agent : PlannerAgent) (t : Turn)
    (s s1 : State) (message : ChatMessage) (fc : FunctionCall)
    (args : gmap string string) (f' : FS) :
  receive agent t s = (Ok message, s1) →
  truthy (content message) = false →
  function_call message = Some fc →
  json_loads (arguments fc) = Ok args →
  create_file (args !! "filename") (args !! "content") (fs s1) = Ok f' →
  ∃ s2,
    loop_body agent t s = (Ok Continue, s2)
    ∧ fs s2 = f'
    ∧ files_changed_this_round (ctx s2)
      = {[args !! "filename"]} ∪ files_changed_this_round (ctx s)
    ∧ args !! "filename" ∈ files_changed_this_round (ctx s2)
    ∧ length (filter (λ x, x = args !! "filename")
                (elements (files_changed_this_round (ctx s2)))) = 1%nat
    ∧ (args !! "filename" ∈ files_changed_this_round (ctx s) →
       files_changed_this_round (ctx s2) = files_changed_this_round (ctx s)).
Proof.
  intros Hr Ht Hf Hj Hw. exists (written args f' s1).
  rewrite (loop_body_received _ _ _ _ _ Hr).
  apply receive_Ok_inv in Hr as (_ & Hctx & _).
  assert (Hset : files_changed_this_round (ctx (written args f' s1))
                 = {[args !! "filename"]} ∪ files_changed_this_round (ctx s)).
  { cbn. by rewrite Hctx. }
  split_and!.
  - by apply (handle_reply_write _ fc).
  - done.
  - done.
  - rewrite Hset. apply elem_of_union_l, elem_of_singleton. done.
  - apply occurs_once; [apply NoDup_elements|].
    apply elem_of_elements. rewrite Hset.
    apply elem_of_union_l, elem_of_singleton. done.
  - intros Hin. rewrite Hset. apply subseteq_union_1_L.
    by apply singleton_subseteq_l.
Qed.




(** ** The frame and the exceptions of [plan] *)

(** C9: [plan] leaves the set of created files of the context as it found
    it, and so does every pass of its loop, also one that writes a file. *)
Theorem plan_keeps_created_files (agent : PlannerAgent) (c : PlannerContext)
    (f : FS) (now : string) (turns : list Turn) (t : Turn) (s : State) :
  created_files (ctx (plan agent c f now turns).2) = created_files c
  ∧ created_files (ctx (loop_body agent t s).2) = created_files (ctx s).
Proof.
  split.
  - rewrite plan_unfold.
    destruct (prepare agent now _) as [r s0] eqn:Hp.
    apply prepare_inv in Hp as (Hc & _ & _). cbn in Hc.
    assert (H0 : created_files (ctx s0) = created_files c) by by rewrite Hc.
    destruct r as [[]|e]; [|done].
    destruct (loop agent turns s0) as [[o|e] s'] eqn:Hl;
      apply loop_frame in Hl; cbn; congruence.
  - destruct (loop_body agent t s) as [r s'] eqn:Hb.
    by apply loop_body_frame in Hb as [Hc _].
Qed.


(** ** Usage accounting *)

Lemma add_usage_figures (agent : PlannerAgent) (t : Turn)
    (total : option TokenUsage.t) :
  add_usage total (log_usage (usage t) (elapsed t) "Step" (model agent)) (elapsed t)
  = match total with
    | None => call_figures agent t
    | Some t0 => sum_figures t0 [call_figures agent t]
    end.
Proof. by destruct total. Qed.

Lemma totals_after_nil (total : option TokenUsage.t) : totals_after total [] = total.
Proof. by destruct total as [[]|]. Qed.

Lemma totals_after_cons (total : option TokenUsage.t) (x : TokenUsage.t)
    (l : list TokenUsage.t) :
  totals_after
    (Some match total with None => x | Some t0 => sum_figures t0 [x] end) l
  = totals_after total (x :: l).
Proof. by destruct total. Qed.

(** A pass changes the running total exactly when the model answers. *)
Lemma loop_body_usage (agent : PlannerAgent) (t : Turn) (s : State) r s' :
  loop_body agent t s = (r, s') →
  total_usage (ctx s')
  = match response t with
    | Ok _ => totals_after (total_usage (ctx s)) [call_figures agent t]
    | Raise _ => total_usage (ctx s)
    end.
Proof.
  unfold loop_body, mbind, M_bind.
  destruct (receive agent t s) as [[message|e] s1] eqn:Hr.
  - apply receive_Ok_inv in Hr as (-> & Hc & _).
    intros (_ & -> & _)%handle_reply_frame. rewrite Hc. cbn [accounted ctx set_total_usage total_usage].
    by rewrite add_usage_figures, <- totals_after_cons, totals_after_nil.
  - apply receive_inv in Hr. intros [= <- <-].
    destruct (response t); [|by destruct Hr as [_ ->]].
    destruct Hr as (_ & -> & _). cbn [accounted ctx set_total_usage total_usage].
    by rewrite add_usage_figures, <- totals_after_cons, totals_after_nil.
Qed.



End Properties.

(** * Further properties of the code *)

Section Further.
Context {rt : Runtime}.

Ltac unfold_M :=
  unfold mbind, M_bind, mret, M_ret, raise, lift, get_ctx, get_fs,
    get_messages, modify_ctx, set_messages, append_message, on_fs,
    try_except in *.

(** ** Whitespace around a text *)

Lemma all_space_app (s t : string) :
  all_space (s +:+ t) = all_space s && all_space t.
Proof.
  induction s as [|a s IH]; [done|].
  rewrite str_app_cons. cbn. by rewrite IH, andb_assoc.
Qed.

Lemma lstrip_all_space (w : string) : all_space w = true → lstrip w = "".
Proof.
  induction w as [|a w IH]; [done|]. cbn.
  intros [Ha Hw]%andb_true_iff. rewrite Ha. by apply IH.
Qed.

Lemma lstrip_empty_all_space (s : string) : lstrip s = "" → all_space s = true.
Proof.
  induction s as [|a s IH]; [done|]. cbn.
  destruct (isspace a); [|done]. exact IH.
Qed.

Lemma lstrip_app (s t : string) :
  lstrip (s +:+ t)
  = match lstrip s with
    | EmptyString => lstrip t
    | String _ _ => lstrip s +:+ t
    end.
Proof.
  induction s as [|a s IH]; [done|].
  rewrite str_app_cons. cbn. by destruct (isspace a).
Qed.

Lemma rev_app_spec (s t : string) : String.rev_app s t = String.rev s +:+ t.
Proof.
  unfold String.rev. revert t. induction s as [|a s IH]; intros t; [done|].
  cbn. rewrite (IH (String a t)), (IH (String a "")).
  by rewrite str_app_assoc.
Qed.

Lemma rev_cons (a : ascii) (s : string) :
  String.rev (String a s) = String.rev s +:+ String a "".
Proof. unfold String.rev at 1. cbn. apply rev_app_spec. Qed.

Lemma rev_app (s t : string) :
  String.rev (s +:+ t) = String.rev t +:+ String.rev s.
Proof.
  induction s as [|a s IH].
  - by rewrite str_app_nil_r.
  - by rewrite str_app_cons, !rev_cons, IH, str_app_assoc.
Qed.

Lemma rev_involutive (s : string) : String.rev (String.rev s) = s.
Proof.
  induction s as [|a s IH]; [done|].
  by rewrite rev_cons, rev_app, IH.
Qed.

Lemma all_space_rev (s : string) : all_space (String.rev s) = all_space s.
Proof.
  induction s as [|a s IH]; [done|].
  rewrite rev_cons, all_space_app, IH. cbn.
  by rewrite andb_true_r, andb_comm.
Qed.

Lemma rstrip_app_space (s w : string) :
  all_space w = true → rstrip (s +:+ w) = rstrip s.
Proof.
  intros Hw. unfold rstrip. rewrite rev_app, lstrip_app.
  rewrite lstrip_all_space by by rewrite all_space_rev. done.
Qed.

(** Whitespace on either side of a text does not show after [strip]. *)
Lemma strip_padded (w1 s w2 : string) :
  all_space w1 = true → all_space w2 = true →
  strip (w1 +:+ s +:+ w2) = strip s.
Proof.
  intros H1 H2. unfold strip.
  rewrite lstrip_app, (lstrip_all_space w1 H1), lstrip_app.
  destruct (lstrip s) as [|a r] eqn:Hs.
  - by rewrite (lstrip_all_space w2 H2).
  - by apply rstrip_app_space.
Qed.

Lemma lstrip_line_feed (s : string) :
  lstrip (String (ascii_of_nat 10) s) = lstrip s.
Proof. reflexivity. Qed.

Lemma lstrip_translate_flag (b b' : bool) (s : string) :
  lstrip (translate_newlines b s) = lstrip (translate_newlines b' s).
Proof.
  destruct s as [|a r]; [done|]. cbn.
  destruct (Ascii.eqb a (ascii_of_nat 13)); [done|].
  destruct (Ascii.eqb a (ascii_of_nat 10)); [|done].
  destruct b, b'; by rewrite ?lstrip_line_feed.
Qed.

Lemma lstrip_translate_padded (b : bool) (w s : string) :
  all_space w = true →
  lstrip (translate_newlines b (w +:+ s)) = lstrip (translate_newlines false s).
Proof.
  revert b. induction w as [|a w IH]; intros b Hw.
  - apply lstrip_translate_flag.
  - cbn in Hw. apply andb_true_iff in Hw as [Ha Hw].
    rewrite str_app_cons. cbn [translate_newlines].
    destruct (Ascii.eqb a (ascii_of_nat 13)).
    { rewrite lstrip_line_feed. by apply IH. }
    destruct (Ascii.eqb a (ascii_of_nat 10)).
    { destruct b; rewrite ?lstrip_line_feed; by apply IH. }
    cbn [lstrip]. rewrite Ha. by apply IH.
Qed.

Lemma all_space_translate (b : bool) (w : string) :
  all_space w = true → all_space (translate_newlines b w) = true.
Proof.
  revert b. induction w as [|a w IH]; intros b Hw; [done|].
  cbn in Hw. apply andb_true_iff in Hw as [Ha Hw]. cbn [translate_newlines].
  destruct (Ascii.eqb a (ascii_of_nat 13)); [by apply (IH true)|].
  destruct (Ascii.eqb a (ascii_of_nat 10)).
  { destruct b; [by apply IH|by apply (IH false)]. }
  cbn. rewrite Ha. by apply IH.
Qed.

Lemma translate_padded_right (b : bool) (s w : string) :
  all_space w = true →
  ∃ w', all_space w' = true
        ∧ translate_newlines b (s +:+ w) = translate_newlines b s +:+ w'.
Proof.
  intros Hw. revert b. induction s as [|a s IH]; intros b.
  - exists (translate_newlines b w). split; [by apply all_space_translate|done].
  - rewrite str_app_cons. cbn [translate_newlines].
    destruct (Ascii.eqb a (ascii_of_nat 13)).
    { destruct (IH true) as (w' & Hw' & ->). by exists w'. }
    destruct (Ascii.eqb a (ascii_of_nat 10)).
    { destruct b; destruct (IH false) as (w' & Hw' & ->); by exists w'. }
    destruct (IH false) as (w' & Hw' & ->). by exists w'.
Qed.

(** Nor does it show when the line ends are translated first. *)
Lemma strip_translate_padded (w1 s w2 : string) :
  all_space w1 = true → all_space w2 = true →
  strip (universal_newlines (w1 +:+ s +:+ w2)) = strip (universal_newlines s).
Proof.
  intros H1 H2. unfold universal_newlines.
  destruct (translate_padded_right false s w2 H2) as (w' & Hw' & Hr).
  transitivity (strip (translate_newlines false (s +:+ w2))).
  - unfold strip. by rewrite lstrip_translate_padded.
  - rewrite Hr. apply (strip_padded "" _ w'); done.
Qed.

Lemma padded_not_empty (w1 s w2 : string) : s ≠ "" → w1 +:+ s +:+ w2 ≠ "".
Proof.
  intros Hs. destruct w1 as [|a w1]; [|done].
  destruct s as [|b s]; done.
Qed.

(** ** Replies with text *)

(** What the loop does with a reply that has text, in one equation. *)
Lemma handle_reply_text (message : ChatMessage) (text : string) (s : State) :
  content message = Some text →
  text ≠ "" →
  handle_reply message s
  = if decide (strip text = "TASK_COMPLETE")
    then (Ok (Return "TASK_COMPLETE"), s)
    else if decide (strip text = "INVOKE_EXECUTOR")
    then if decide (Some "scratchpad.md" ∉ files_changed_this_round (ctx s))
         then (Ok Continue,
               Build_State (ctx s) (fs s) (messages s ++ [handoff_retry]))
         else (Ok (Return (strip text)), s)
    else (Ok Continue,
          Build_State (ctx s) (fs s) (messages s ++ [content_retry])).
Proof.
  intros Hc Hne. unfold handle_reply. rewrite Hc.
  destruct text as [|a text]; [done|]. cbn [truthy format_opt].
  destruct (decide _); [done|]. destruct (decide _); [|done].
  unfold_M. by destruct (decide _).
Qed.

(** Outside debug mode, receiving a reply is the call and its accounting. *)
Lemma receive_no_debug (agent : PlannerAgent) (t : Turn) (s : State) :
  debug (ctx s) = false →
  receive agent t s
  = match response t with
    | Ok message => (Ok message, accounted agent t s)
    | Raise e => (Raise e, s)
    end.
Proof.
  intros Hd. unfold receive. destruct (response t) as [message|e] eqn:Hr.
  - rewrite (bind_Ok _ _ _ _ _ (call_model_Ok agent t s message Hr)).
    unfold dump_response. unfold_M. cbn. by rewrite Hd.
  - by rewrite (bind_Raise _ _ _ _ _ (call_model_Raise agent t s e Hr)).
Qed.

Lemma loop_body_no_debug (agent : PlannerAgent) (t : Turn) (s : State)
    (message : ChatMessage) :
  debug (ctx s) = false →
  response t = Ok message →
  loop_body agent t s = handle_reply message (accounted agent t s).
Proof.
  intros Hd Hr. apply loop_body_received.
  by rewrite receive_no_debug, Hr.
Qed.

(** X1: outside debug mode, whitespace before and after a reply text that
    is not empty makes no difference to what the pass does: the padded reply
    is handled as the reply with the text alone. *)
Theorem reply_whitespace_is_ignored (agent : PlannerAgent) (t : Turn)
    (s : State) (message : ChatMessage) (w1 text w2 : string) :
  debug (ctx s) = false →
  response t = Ok message →
  content message = Some (w1 +:+ text +:+ w2) →
  all_space w1 = true →
  all_space w2 = true →
  text ≠ "" →
  loop_body agent t s
  = loop_body agent
      (Build_Turn (stamp t) (elapsed t)
         (Ok (Build_ChatMessage (Some text) (function_call message))) (usage t))
      s.
Proof.
  intros Hd Hr Hc H1 H2 Hne.
  rewrite (loop_body_no_debug _ _ _ _ Hd Hr).
  rewrite (loop_body_no_debug agent
             (Build_Turn (stamp t) (elapsed t)
                (Ok (Build_ChatMessage (Some text) (function_call message)))
                (usage t)) s _ Hd eq_refl).
  change (accounted agent (Build_Turn _ _ _ (usage t)) s) with (accounted agent t s).
  rewrite (handle_reply_text _ _ _ Hc (padded_not_empty _ _ _ Hne)).
  rewrite (handle_reply_text (Build_ChatMessage (Some text) _) text _ eq_refl Hne).
  by rewrite strip_padded.
Qed.

(** X2: outside debug mode, a reply that has text is handled by its text
    alone: a function call it also carries is not carried out.  The pass does
    what it does for the reply without the call, the files are as they were,
    and so is the set of files changed in the round. *)
Theorem text_reply_ignores_function_call (agent : PlannerAgent) (t : Turn)
    (s : State) (message : ChatMessage) (text : string) :
  debug (ctx s) = false →
  response t = Ok message →
  content message = Some text →
  text ≠ "" →
  loop_body agent t s
  = loop_body agent
      (Build_Turn (stamp t) (elapsed t)
         (Ok (Build_ChatMessage (Some text) None)) (usage t)) s
  ∧ fs (loop_body agent t s).2 = fs s
  ∧ files_changed_this_round (ctx (loop_body agent t s).2)
    = files_changed_this_round (ctx s).
Proof.
  intros Hd Hr Hc Hne.
  rewrite (loop_body_no_debug _ _ _ _ Hd Hr).
  rewrite (loop_body_no_debug agent
             (Build_Turn (stamp t) (elapsed t)
                (Ok (Build_ChatMessage (Some text) None)) (usage t))
             s _ Hd eq_refl).
  change (accounted agent (Build_Turn _ _ _ (usage t)) s) with (accounted agent t s).
  rewrite (handle_reply_text _ _ _ Hc Hne).
  rewrite (handle_reply_text (Build_ChatMessage (Some text) None) text _ eq_refl Hne).
  split; [done|].
  destruct (decide _); [done|]. destruct (decide _); [|done].
  by destruct (decide _).
Qed.

(** X3: a reply whose text, once stripped, is [TASK_COMPLETE] ends the round
    with exactly that text, whatever files were changed and whatever turns
    would follow; handling it changes neither the context nor the files nor
    the message list. *)
Theorem completion_ends_the_round (agent : PlannerAgent) (t : Turn)
    (rest : list Turn) (s s1 : State) (message : ChatMessage) (text : string) :
  receive agent t s = (Ok message, s1) →
  content message = Some text →
  strip text = "TASK_COMPLETE" →
  loop agent (t :: rest) s = (Ok (Some "TASK_COMPLETE"), s1).
Proof.
  intros Hr Hc Hs. apply loop_Return.
  rewrite (loop_body_received _ _ _ _ _ Hr).
  rewrite (handle_reply_text _ text); [|done|].
  - by destruct (decide _).
  - intros ->. by rewrite strip_empty in Hs.
Qed.

(** X4: a reply whose text, once stripped, is [INVOKE_EXECUTOR] is honoured
    when [scratchpad.md] is among the files changed in the round: the round
    ends with the stripped text, and the later turns are not looked at. *)
Theorem handoff_after_scratchpad_is_honoured (agent : PlannerAgent) (t : Turn)
    (rest : list Turn) (s s1 : State) (message : ChatMessage) (text : string) :
  receive agent t s = (Ok message, s1) →
  content message = Some text →
  strip text = "INVOKE_EXECUTOR" →
  Some "scratchpad.md" ∈ files_changed_this_round (ctx s) →
  loop agent (t :: rest) s = (Ok (Some "INVOKE_EXECUTOR"), s1).
Proof.
  intros Hr Hc Hs Hin. apply loop_Return.
  rewrite (loop_body_received _ _ _ _ _ Hr).
  apply receive_Ok_inv in Hr as (_ & Hctx & _).
  rewrite (handle_reply_text _ text); [|done|].
  - rewrite Hs. destruct (decide _) as [[=]|_].
    destruct (decide _) as [_|[]]; [|done].
    destruct (decide _) as [Hnot|_]; [|done].
    exfalso. apply Hnot. by rewrite Hctx.
  - intros ->. by rewrite strip_empty in Hs.
Qed.

(** ** Failures inside a pass *)

(** X5: when a file-write request cannot be carried out, because its
    arguments do not decode or because [create_file] raises, the pass raises
    that exception, and nothing is recorded: the set of files changed in the
    round and the message list are as they were before the pass. *)
Theorem failed_write_is_not_recorded (agent : PlannerAgent) (t : Turn)
    (rest : list Turn) (s s1 : State) (message : ChatMessage)
    (fc : FunctionCall) (e : exn) :
  receive agent t s = (Ok message, s1) →
  truthy (content message) = false →
  function_call message = Some fc →
  (json_loads (arguments fc) = Raise e
   ∨ ∃ args, json_loads (arguments fc) = Ok args
             ∧ create_file (args !! "filename") (args !! "content") (fs s1)
               = Raise e) →
  loop_body agent t s = (Raise e, s1)
  ∧ loop agent (t :: rest) s = (Raise e, s1)
  ∧ files_changed_this_round (ctx s1) = files_changed_this_round (ctx s)
  ∧ messages s1 = messages s.
Proof.
  intros Hr Ht Hf Hfail.
  assert (Hb : loop_body agent t s = (Raise e, s1)).
  { rewrite (loop_body_received _ _ _ _ _ Hr).
    unfold handle_reply. rewrite Ht, Hf. unfold_M.
    destruct Hfail as [->|(args & -> & Hw)]; [done|]. cbn. by rewrite Hw. }
  apply receive_Ok_inv in Hr as (_ & Hctx & Hm).
  split_and!; [done|by apply loop_Raise|by rewrite Hctx|done].
Qed.

(** X6: in debug mode the arguments of a function call are decoded for the
    dump before the reply is looked at: when they do not decode, the pass
    raises, whatever the text of the reply, even a text that would end the
    round. *)
Theorem debug_mode_decodes_the_call_first (agent : PlannerAgent) (t : Turn)
    (s : State) (message : ChatMessage) (fc : FunctionCall) (e : exn) :
  debug (ctx s) = true →
  response t = Ok message →
  function_call message = Some fc →
  json_loads (arguments fc) = Raise e →
  loop_body agent t s = (Raise e, accounted agent t s).
Proof.
  intros Hd Hr Hf Hj.
  assert (Hdump : dump_response t message (accounted agent t s)
                  = (Raise e, accounted agent t s)).
  { unfold dump_response. unfold_M. cbn. by rewrite Hd, Hf, Hj. }
  unfold loop_body, receive, mbind, M_bind.
  by rewrite (call_model_Ok agent t s message Hr), Hdump.
Qed.

(** ** The round as a whole *)

Lemma build_prompt_reset (agent : PlannerAgent) (c : PlannerContext) (f : FS) :
  _build_prompt agent (reset_file_changes c) f = _build_prompt agent c f.
Proof. reflexivity. Qed.

Lemma prepare_no_debug (agent : PlannerAgent) (now : string)
    (c : PlannerContext) (f : FS) (l : list Message) :
  debug c = false →
  prepare agent now (Build_State c f l)
  = (Ok tt, Build_State (reset_file_changes c) f (_build_prompt agent c f)).
Proof. intros Hd. unfold prepare. unfold_M. cbn. by rewrite Hd. Qed.

Lemma plan_no_debug (agent : PlannerAgent) (c : PlannerContext) (f : FS)
    (now : string) (turns : list Turn) :
  debug c = false →
  plan agent c f now turns
  = match loop agent turns
            (Build_State (reset_file_changes c) f (_build_prompt agent c f)) with
    | (Ok o, s') => (Ok o, s')
    | (Raise e, s') => (Ok (Some (planning_error e)), s')
    end.
Proof. intros Hd. by rewrite plan_unfold, prepare_no_debug. Qed.

(** X7: outside debug mode, a model call that raises ends the round with the
    text [Error during planning: <str(e)>], and leaves everything else as the
    start of the round left it: the files, the running usage total, and a
    message list that holds the prompt alone. *)
Theorem failed_model_call_ends_the_round (agent : PlannerAgent)
    (c : PlannerContext) (f : FS) (now : string) (t : Turn)
    (rest : list Turn) (e : exn) :
  debug c = false →
  response t = Raise e →
  plan agent c f now (t :: rest)
  = (Ok (Some ("Error during planning: " +:+ exn_str e)),
     Build_State (reset_file_changes c) f (_build_prompt agent c f)).
Proof.
  intros Hd Hr. rewrite (plan_no_debug _ _ _ _ _ Hd).
  set (s0 := Build_State (reset_file_changes c) f (_build_prompt agent c f)).
  rewrite (loop_Raise agent t rest s0 s0 e); [done|].
  unfold loop_body. apply bind_Raise.
  by rewrite receive_no_debug, Hr.
Qed.

Lemma loop_result_range (agent : PlannerAgent) (turns : list Turn)
    (s s' : State) (x : string) :
  loop agent turns s = (Ok (Some x), s') →
  x = "TASK_COMPLETE" ∨ x = "INVOKE_EXECUTOR"
  ∨ x = "Error: Failed to update progress tracking".
Proof.
  revert s. induction turns as [|t rest IH]; intros s; [done|].
  destruct (loop_body agent t s) as [[[y|]|e] s2] eqn:Hb.
  - rewrite (loop_Return _ _ _ _ _ _ Hb). intros [= -> ->].
    apply loop_body_Return in Hb as [?|[[? _]|?]]; auto.
  - rewrite (loop_Continue _ _ _ _ _ Hb). apply IH.
  - by rewrite (loop_Raise _ _ _ _ _ _ Hb).
Qed.

(** X8: whatever the model answers, a text returned by [plan] is one of
    [TASK_COMPLETE], [INVOKE_EXECUTOR],
    [Error: Failed to update progress tracking], or
    [Error during planning: ] followed by the message of an exception. *)
Theorem plan_result_range (agent : PlannerAgent) (c : PlannerContext) (f : FS)
    (now : string) (turns : list Turn) (x : string) (s' : State) :
  plan agent c f now turns = (Ok (Some x), s') →
  x = "TASK_COMPLETE" ∨ x = "INVOKE_EXECUTOR"
  ∨ x = "Error: Failed to update progress tracking"
  ∨ ∃ e, x = "Error during planning: " +:+ exn_str e.
Proof.
  rewrite plan_unfold.
  destruct (prepare agent now _) as [[[]|e] s0]; [|done].
  destruct (loop agent turns s0) as [[o|e] s2] eqn:Hl.
  - intros [= -> ->]. apply loop_result_range in Hl as [?|[?|?]]; auto.
  - intros [= <- _]. do 3 right. by exists e.
Qed.

Lemma loop_ignores_later_turns (agent : PlannerAgent) (turns more : list Turn)
    (s : State) r s' :
  loop agent turns s = (r, s') →
  r ≠ Ok None →
  loop agent (turns ++ more) s = (r, s').
Proof.
  revert s. induction turns as [|t rest IH]; intros s.
  - by intros [= <- <-].
  - rewrite <- app_comm_cons.
    destruct (loop_body agent t s) as [[[y|]|e] s2] eqn:Hb.
    + by rewrite !(loop_Return _ _ _ _ _ _ Hb).
    + rewrite !(loop_Continue _ _ _ _ _ Hb). apply IH.
    + by rewrite !(loop_Raise _ _ _ _ _ _ Hb).
Qed.

(** X9: once [plan] has returned or raised on a sequence of turns, it does
    the same, and leaves the same state, on any longer sequence that starts
    with those turns: what the model would answer after the end of the round
    plays no part. *)
Theorem later_turns_are_ignored (agent : PlannerAgent) (c : PlannerContext)
    (f : FS) (now : string) (turns more : list Turn) r s' :
  plan agent c f now turns = (r, s') →
  r ≠ Ok None →
  plan agent c f now (turns ++ more) = (r, s').
Proof.
  rewrite !plan_unfold.
  destruct (prepare agent now _) as [[[]|e] s0]; [|done].
  destruct (loop agent turns s0) as [[o|e] s2] eqn:Hl.
  - intros [= <- <-] Hne.
    by rewrite (loop_ignores_later_turns _ _ more _ _ _ Hl).
  - intros [= <- <-] _.
    by rewrite (loop_ignores_later_turns _ _ more _ _ _ Hl).
Qed.

Lemma handle_reply_prefix (message : ChatMessage) (s : State) r s' :
  handle_reply message s = (r, s') → messages s `prefix_of` messages s'.
Proof.
  unfold handle_reply. destruct (truthy (content message)).
  - destruct (decide _); [by intros [= <- <-]|].
    destruct (decide _).
    + unfold_M. destruct (decide _); intros [= <- <-]; [|done].
      by apply prefix_app_r.
    + intros [= <- <-]. by apply prefix_app_r.
  - destruct (function_call message) as [fc|]; [|by intros [= <- <-]].
    unfold_M. destruct (json_loads (arguments fc)) as [args|]; [|by intros [= <- <-]].
    cbn. destruct (create_file _ _ _); intros [= <- <-]; cbn; [|done].
    by do 2 apply prefix_app_r.
Qed.

Lemma loop_body_prefix (agent : PlannerAgent) (t : Turn) (s : State) r s' :
  loop_body agent t s = (r, s') → messages s `prefix_of` messages s'.
Proof.
  unfold loop_body, mbind, M_bind.
  destruct (receive agent t s) as [[message|e] s1] eqn:Hr.
  - apply receive_Ok_inv in Hr as (_ & _ & <-). apply handle_reply_prefix.
  - apply receive_inv in Hr. intros [= <- <-].
    destruct (response t); [by destruct Hr as (_ & _ & ->)|by destruct Hr as [_ ->]].
Qed.

Lemma loop_prefix (agent : PlannerAgent) (turns : list Turn) (s : State) r s' :
  loop agent turns s = (r, s') → messages s `prefix_of` messages s'.
Proof.
  revert s. induction turns as [|t rest IH]; intros s; [by intros [= <- <-]|].
  destruct (loop_body agent t s) as [[[y|]|e] s2] eqn:Hb;
    pose proof (loop_body_prefix _ _ _ _ _ Hb) as Hp.
  - rewrite (loop_Return _ _ _ _ _ _ Hb). by intros [= <- <-].
  - rewrite (loop_Continue _ _ _ _ _ Hb). intros Hl%IH. by etrans.
  - rewrite (loop_Raise _ _ _ _ _ _ Hb). by intros [= <- <-].
Qed.

(** X10: the message list of a round only grows: however the round goes, the
    list it ends with starts with the prompt built at the start of the round,
    the system message and the user message, and every pass keeps what the
    list held before it. *)
Theorem messages_only_grow (agent : PlannerAgent) (c : PlannerContext)
    (f : FS) (now : string) (turns : list Turn) (t : Turn) (s : State) :
  _build_prompt agent c f `prefix_of` messages (plan agent c f now turns).2
  ∧ messages s `prefix_of` messages (loop_body agent t s).2.
Proof.
  split.
  - rewrite plan_unfold.
    destruct (prepare agent now _) as [r s0] eqn:Hp.
    apply prepare_inv in Hp as (_ & Hm & _). cbn in Hm.
    rewrite build_prompt_reset in Hm. rewrite <- Hm.
    destruct r as [[]|e]; [|done].
    destruct (loop agent turns s0) as [[o|e] s2] eqn:Hl;
      by apply loop_prefix in Hl.
  - destruct (loop_body agent t s) as [r s'] eqn:Hb.
    by apply loop_body_prefix in Hb.
Qed.

Lemma loop_body_changed (agent : PlannerAgent) (t : Turn) (s : State) r s'
    (x : option string) :
  loop_body agent t s = (r, s') →
  x ∈ files_changed_this_round (ctx s') →
  x ∈ files_changed_this_round (ctx s) ∨ writes t x.
Proof.
  unfold loop_body, mbind, M_bind.
  destruct (receive agent t s) as [[message|e] s1] eqn:Hr.
  - apply receive_Ok_inv in Hr as (Hresp & Hctx & _).
    assert (Hs1 : files_changed_this_round (ctx s1)
                  = files_changed_this_round (ctx s)) by by rewrite Hctx.
    rewrite <- Hs1. clear Hctx Hs1.
    unfold handle_reply. destruct (truthy (content message)) eqn:Ht.
    + destruct (decide _); [intros [= <- <-]; auto|].
      destruct (decide _); [|intros [= <- <-]; auto].
      unfold_M. destruct (decide _); intros [= <- <-]; auto.
    + destruct (function_call message) as [fc|] eqn:Hf; [|intros [= <- <-]; auto].
      unfold_M. destruct (json_loads (arguments fc)) as [args|] eqn:Hj;
        [|intros [= <- <-]; auto].
      cbn. destruct (create_file _ _ _); intros [= <- <-]; cbn; [|auto].
      intros [->%elem_of_singleton|Hin]%elem_of_union; [|auto].
      right. by exists message, fc, args.
  - apply receive_inv in Hr. intros [= <- <-].
    destruct (response t); [destruct Hr as (_ & -> & _)|destruct Hr as [_ ->]];
      auto.
Qed.

Lemma loop_changed (agent : PlannerAgent) (turns : list Turn) (s : State) r s'
    (x : option string) :
  loop agent turns s = (r, s') →
  x ∈ files_changed_this_round (ctx s') →
  x ∈ files_changed_this_round (ctx s) ∨ ∃ t, t ∈ turns ∧ writes t x.
Proof.
  revert s. induction turns as [|t rest IH]; intros s.
  - intros [= <- <-]. auto.
  - destruct (loop_body agent t s) as [[[y|]|e] s2] eqn:Hb.
    + rewrite (loop_Return _ _ _ _ _ _ Hb). intros [= <- <-] Hin.
      destruct (loop_body_changed _ _ _ _ _ _ Hb Hin) as [?|?]; [auto|].
      right. exists t. split; [left|done].
    + rewrite (loop_Continue _ _ _ _ _ Hb). intros Hl Hin.
      destruct (IH _ Hl Hin) as [Hin2|(t' & Ht' & Hw)].
      * destruct (loop_body_changed _ _ _ _ _ _ Hb Hin2) as [?|?]; [auto|].
        right. exists t. split; [left|done].
      * right. exists t'. split; [by right|done].
    + rewrite (loop_Raise _ _ _ _ _ _ Hb). intros [= <- <-] Hin.
      destruct (loop_body_changed _ _ _ _ _ _ Hb Hin) as [?|?]; [auto|].
      right. exists t. split; [left|done].
Qed.

(** X11: the set of changed files is emptied when [plan] starts, so what the
    context recorded before the round does not count: every file name in the
    set when [plan] ends was put there by a file-write request of one of the
    round's turns; and [plan] returns [INVOKE_EXECUTOR] only if one of the
    round's turns carried a file-write request for [scratchpad.md]. *)
Theorem handoff_needs_a_write_in_this_round (agent : PlannerAgent)
    (c : PlannerContext) (f : FS) (now : string) (turns : list Turn) :
  (∀ x, x ∈ files_changed_this_round (ctx (plan agent c f now turns).2) →
        ∃ t, t ∈ turns ∧ writes t x)
  ∧ (∀ s', plan agent c f now turns = (Ok (Some "INVOKE_EXECUTOR"), s') →
           ∃ t, t ∈ turns ∧ writes t (Some "scratchpad.md")).
Proof.
  assert (Hall : ∀ x, x ∈ files_changed_this_round
                            (ctx (plan agent c f now turns).2) →
                      ∃ t, t ∈ turns ∧ writes t x).
  { intros x. rewrite plan_unfold.
    destruct (prepare agent now _) as [r s0] eqn:Hp.
    apply prepare_inv in Hp as (Hc & _ & _). cbn in Hc.
    assert (H0 : files_changed_this_round (ctx s0) = ∅) by by rewrite Hc.
    destruct r as [[]|e]; [|cbn; rewrite H0; set_solver].
    destruct (loop agent turns s0) as [[o|e] s2] eqn:Hl; cbn; intros Hin;
      destruct (loop_changed _ _ _ _ _ _ Hl Hin) as [Hin0|?]; try done;
      rewrite H0 in Hin0; set_solver. }
  split; [done|].
  intros s' Hplan. apply Hall. rewrite Hplan.
  by apply (plan_handoff_guard _ _ _ _ _ _ Hplan).
Qed.

Lemma loop_premature_handoffs (agent : PlannerAgent) (turns : list Turn)
    (s : State) :
  debug (ctx s) = false →
  Some "scratchpad.md" ∉ files_changed_this_round (ctx s) →
  Forall (λ t, ∃ message text,
            response t = Ok message ∧ content message = Some text
            ∧ strip text = "INVOKE_EXECUTOR") turns →
  ∃ s',
    loop agent turns s = (Ok None, s')
    ∧ messages s' = messages s ++ replicate (length turns) handoff_retry
    ∧ fs s' = fs s
    ∧ files_changed_this_round (ctx s') = files_changed_this_round (ctx s).
Proof.
  intros Hd Hguard Hall. revert s Hd Hguard.
  induction Hall as [|t rest (message & text & Hr & Hc & Hs) _ IH];
    intros s Hd Hguard.
  - exists s. cbn. by rewrite app_nil_r.
  - assert (Hb : loop_body agent t s
                 = (Ok Continue,
                    Build_State (ctx (accounted agent t s)) (fs s)
                      (messages s ++ [handoff_retry]))).
    { rewrite (loop_body_no_debug _ _ _ _ Hd Hr).
      by rewrite (handle_reply_handoff_rejected _ text (accounted agent t s) Hc Hs). }
    rewrite (loop_Continue _ _ _ _ _ Hb).
    destruct (IH (Build_State (ctx (accounted agent t s)) (fs s)
                    (messages s ++ [handoff_retry])) Hd Hguard)
      as (s' & Hl & Hm & Hf & Hch).
    exists s'. split_and!; [done| |done|done].
    rewrite Hm. cbn. by rewrite <- app_assoc.
Qed.

(** X12: the loop has no bound on retries.  Outside debug mode, a round in
    which every answer of the model is [INVOKE_EXECUTOR] (with or without
    whitespace around it) never returns, however many turns it is given: every
    turn is used up, each adds one warning to the message list after the
    prompt, and nothing is written or recorded as changed. *)
Theorem premature_handoffs_are_retried_without_limit (agent : PlannerAgent)
    (c : PlannerContext) (f : FS) (now : string) (turns : list Turn) :
  debug c = false →
  Forall (λ t, ∃ message text,
            response t = Ok message ∧ content message = Some text
            ∧ strip text = "INVOKE_EXECUTOR") turns →
  ∃ s',
    plan agent c f now turns = (Ok None, s')
    ∧ messages s'
      = _build_prompt agent c f ++ replicate (length turns) handoff_retry
    ∧ fs s' = f
    ∧ files_changed_this_round (ctx s') = ∅.
Proof.
  intros Hd Hall. rewrite (plan_no_debug _ _ _ _ _ Hd).
  destruct (loop_premature_handoffs agent turns
              (Build_State (reset_file_changes c) f (_build_prompt agent c f)))
    as (s' & Hl & Hm & Hf & Hch); [done|cbn; set_solver|done|].
  exists s'. by rewrite Hl.
Qed.

(** X13: writing the scratchpad and then handing off works.  Outside debug
    mode, when the first answer is a file-write request for [scratchpad.md]
    that is carried out and the second is [INVOKE_EXECUTOR], [plan] returns
    [INVOKE_EXECUTOR], with the files as [create_file] left them, whatever
    the context recorded before the round. *)
Theorem write_then_handoff_is_honoured (agent : PlannerAgent)
    (c : PlannerContext) (f f' : FS) (now : string) (t1 t2 : Turn)
    (rest : list Turn) (m1 m2 : ChatMessage) (fc : FunctionCall)
    (args : gmap string string) (text : string) :
  debug c = false →
  response t1 = Ok m1 →
  truthy (content m1) = false →
  function_call m1 = Some fc →
  json_loads (arguments fc) = Ok args →
  args !! "filename" = Some "scratchpad.md" →
  create_file (args !! "filename") (args !! "content") f = Ok f' →
  response t2 = Ok m2 →
  content m2 = Some text →
  strip text = "INVOKE_EXECUTOR" →
  ∃ s',
    plan agent c f now (t1 :: t2 :: rest) = (Ok (Some "INVOKE_EXECUTOR"), s')
    ∧ fs s' = f'
    ∧ files_changed_this_round (ctx s') = {[ Some "scratchpad.md" ]}.
Proof.
  intros Hd Hr1 Ht1 Hf1 Hj Hname Hw Hr2 Hc2 Hs.
  rewrite (plan_no_debug _ _ _ _ _ Hd).
  set (s0 := Build_State (reset_file_changes c) f (_build_prompt agent c f)).
  assert (Hd0 : debug (ctx s0) = false) by exact Hd.
  assert (Hb1 : loop_body agent t1 s0
                = (Ok Continue, written args f' (accounted agent t1 s0))).
  { rewrite (loop_body_no_debug _ _ _ _ Hd0 Hr1).
    by apply (handle_reply_write _ fc). }
  rewrite (loop_Continue _ _ _ _ _ Hb1).
  set (s1 := written args f' (accounted agent t1 s0)).
  assert (Hd1 : debug (ctx s1) = false) by exact Hd.
  assert (Hb2 : loop_body agent t2 s1
                = (Ok (Return "INVOKE_EXECUTOR"), accounted agent t2 s1)).
  { rewrite (loop_body_no_debug _ _ _ _ Hd1 Hr2).
    rewrite (handle_reply_text _ text); [|done|].
    - rewrite Hs. destruct (decide _) as [[=]|_].
      destruct (decide _) as [_|[]]; [|done].
      destruct (decide _) as [Hnot|_]; [|done].
      exfalso. apply Hnot. cbn. rewrite Hname. set_solver.
    - intros ->. by rewrite strip_empty in Hs. }
  rewrite (loop_Return _ _ _ _ _ _ Hb2).
  eexists. split_and!; [done|done|].
  cbn. rewrite Hname. set_solver.
Qed.

(** ** The prompt *)

Lemma existsb_file_ext (f1 f2 : FS) (l : list string) :
  (∀ d, d ∈ l → f1 !! d = f2 !! d) →
  existsb (λ d, match f1 !! d with Some (File _) => true | _ => false end) l
  = existsb (λ d, match f2 !! d with Some (File _) => true | _ => false end) l.
Proof.
  induction l as [|d l IH]; intros Hl; [done|]. cbn.
  rewrite (Hl d) by left. rewrite IH; [done|].
  intros d' Hd'. apply Hl. by right.
Qed.

Lemma read_text_ext (f1 f2 : FS) (k : string) :
  f1 !! k = f2 !! k →
  (∀ d, d ∈ ancestors k → f1 !! d = f2 !! d) →
  read_text f1 k = read_text f2 k.
Proof.
  intros Hk Ha. unfold read_text, open_read, under_a_file.
  by rewrite Hk, (existsb_file_ext f1 f2 _ Ha).
Qed.

Lemma load_file_contents_ext (c1 c2 : PlannerContext) (f1 f2 : FS) :
  created_files c1 = created_files c2 →
  (∀ k, k ∈ created_files c1 →
        f1 !! k = f2 !! k ∧ ∀ d, d ∈ ancestors k → f1 !! d = f2 !! d) →
  _load_file_contents c1 f1 = _load_file_contents c2 f2.
Proof.
  intros Hcr Hfs. rewrite !load_file_contents_eq, <- Hcr.
  apply list_fmap_ext. intros i k Hk. f_equal.
  unfold read_or_placeholder.
  destruct (Hfs k) as [Hk1 Hk2].
  { apply set_iter_elem, list_elem_of_lookup. by exists i. }
  by rewrite (read_text_ext f1 f2 k Hk1 Hk2).
Qed.

(** X14: the prompt of a context is made of the system prompt, the user's
    request and the created files, and of nothing else.  Keeping the request
    and the set of created files of a context and replacing its conversation
    history, scratchpad content, usage total, debug flag and changed files
    gives the same prompt, in any file system that agrees with the first on
    the created files and on the paths above them. *)
Theorem prompt_depends_on_request_and_created_files (agent : PlannerAgent)
    (c : PlannerContext) (f1 f2 : FS)
    (history : list (gmap string string)) (scratchpad : option string)
    (total : option TokenUsage.t) (dbg : bool)
    (changed : gset (option string)) :
  (∀ k, k ∈ created_files c →
        f1 !! k = f2 !! k ∧ ∀ d, d ∈ ancestors k → f1 !! d = f2 !! d) →
  _build_prompt agent c f1
  = _build_prompt agent
      (Build_PlannerContext history (created_files c) (user_input c)
         scratchpad total dbg changed) f2.
Proof.
  intros Hfs. unfold _build_prompt.
  by rewrite (load_file_contents_ext c
                (Build_PlannerContext history (created_files c) (user_input c)
                   scratchpad total dbg changed) f1 f2 eq_refl Hfs).
Qed.

Lemma set_iter_empty : set_iter (∅ : gset string) = [].
Proof.
  apply Permutation_nil_r. rewrite (set_iter_perm ∅). by rewrite elements_empty.
Qed.

(** X15: with no created files the prompt has no section of files: the user
    message is the request between its heading and a blank line, followed by
    an empty list of available files. *)
Theorem prompt_without_created_files (agent : PlannerAgent)
    (c : PlannerContext) (f : FS) :
  created_files c = ∅ →
  _build_prompt agent c f
  = [Build_Message "system" (Some (system_prompt agent)) None;
     Build_Message "user"
       (Some (nl +:+ "Current User Request:" +:+ nl +:+ user_input c +:+ nl
              +:+ nl +:+ nl +:+ "Available Files: " +:+ nl)) None].
Proof.
  intros Hc. unfold _build_prompt.
  rewrite load_file_contents_eq, Hc, set_iter_empty. cbn [fmap list_fmap join].
  by rewrite !str_app_assoc.
Qed.

(** X16: whitespace before and after the text of the rules file makes no
    difference to the agent that is constructed. *)
Theorem rules_whitespace_is_ignored (today : string) (f1 f2 : FS)
    (mdl : string) (w1 text w2 : string) :
  all_space w1 = true →
  all_space w2 = true →
  f1 !! ".plannerrules" = Some (File (w1 +:+ text +:+ w2)) →
  f2 !! ".plannerrules" = Some (File text) →
  PlannerAgent_init today f1 mdl = PlannerAgent_init today f2 mdl.
Proof.
  intros H1 H2 Hf1 Hf2.
  unfold PlannerAgent_init, _load_system_prompt, path_exists, read_text, open_read.
  by rewrite Hf1, Hf2, strip_translate_padded.
Qed.

(** ** The debug dumps *)

Lemma dirname_None_cons (a : ascii) (s : string) :
  dirname (String a s) = None → Ascii.eqb a "/" = false ∧ dirname s = None.
Proof.
  cbn. destruct (dirname s); [done|]. by destruct (Ascii.eqb a "/").
Qed.

(** A text made of two texts without a slash has no slash. *)
Lemma dirname_app_None (a b : string) :
  dirname a = None → dirname b = None → dirname (a +:+ b) = None.
Proof.
  induction a as [|x a IH]; intros Ha Hb; [done|].
  apply dirname_None_cons in Ha as [Hx Ha].
  rewrite str_app_cons. cbn. by rewrite (IH Ha Hb), Hx.
Qed.

Lemma dirname_prompts (file : string) :
  dirname file = None → dirname ("prompts/" +:+ file) = Some "prompts".
Proof.
  intros Hn.
  change ("prompts/" +:+ file)
    with (String "p" (String "r" (String "o" (String "m" (String "p"
           (String "t" (String "s" (String "/" file)))))))).
  cbn. by rewrite Hn.
Qed.

Lemma prompts_file_not_prompts (file : string) : "prompts/" +:+ file ≠ "prompts".
Proof.
  change ("prompts/" +:+ file)
    with (String "p" (String "r" (String "o" (String "m" (String "p"
           (String "t" (String "s" (String "/" file)))))))).
  discriminate.
Qed.

(** Writing a dump called [file] into the directory [prompts]. *)
Lemma dump_written (file text : string) (s : State) :
  fs s !! "prompts" = Some Dir →
  dirname file = None →
  fs s !! ("prompts/" +:+ file) ≠ Some Dir →
  on_fs (open_write ("prompts/" +:+ file) text) s
  = (Ok tt,
     Build_State (ctx s) (<["prompts/" +:+ file := File text]> (fs s))
       (messages s)).
Proof.
  intros Hdir Hfile Htarget. unfold on_fs, open_write.
  rewrite (dirname_prompts _ Hfile), Hdir.
  destruct (fs s !! ("prompts/" +:+ file)) as [[x|]|]; done.
Qed.

Lemma ensure_prompts_dir_spec (s : State) :
  fs s !! "prompts" = None ∨ fs s !! "prompts" = Some Dir →
  ensure_prompts_dir s
  = (Ok tt, Build_State (ctx s) (<["prompts" := Dir]> (fs s)) (messages s)).
Proof.
  unfold ensure_prompts_dir, path_exists. unfold_M.
  intros [Hp|Hp]; rewrite Hp; [done|].
  rewrite insert_id by done. by destruct s.
Qed.

Lemma dump_into_prompts (file text : string) (s : State) :
  fs s !! "prompts" = None ∨ fs s !! "prompts" = Some Dir →
  dirname file = None →
  fs s !! ("prompts/" +:+ file) ≠ Some Dir →
  (ensure_prompts_dir;; on_fs (open_write ("prompts/" +:+ file) text)) s
  = (Ok tt,
     Build_State (ctx s)
       (<["prompts/" +:+ file := File text]> (<["prompts" := Dir]> (fs s)))
       (messages s)).
Proof.
  intros Hp Hfile Htarget.
  rewrite (bind_Ok _ _ _ _ _ (ensure_prompts_dir_spec s Hp)).
  rewrite dump_written; cbn [fs ctx messages]; try done.
  - by rewrite lookup_insert_eq.
  - rewrite lookup_insert_ne; [done|].
    intros Heq. by apply (prompts_file_not_prompts file).
Qed.

Lemma dump_refused (file text : string) (x : string) (s : State) :
  fs s !! "prompts" = Some (File x) →
  dirname file = None →
  fs s !! ("prompts/" +:+ file) ≠ Some Dir →
  (ensure_prompts_dir;; on_fs (open_write ("prompts/" +:+ file) text)) s
  = (Raise (NotADirectoryError_at ("prompts/" +:+ file)), s).
Proof.
  intros Hp Hfile Htarget.
  assert (Hens : ensure_prompts_dir s = (Ok tt, s)).
  { unfold ensure_prompts_dir, path_exists. unfold_M. rewrite Hp. by destruct s. }
  rewrite (bind_Ok _ _ _ _ _ Hens). unfold on_fs, open_write.
  rewrite (dirname_prompts _ Hfile), Hp.
  by destruct (fs s !! ("prompts/" +:+ file)) as [[y|]|].
Qed.

Lemma dump_name_no_slash (stamp0 step ending : string) :
  dirname stamp0 = None → dirname step = None → dirname ending = None →
  dirname (stamp0 +:+ "_planner_" +:+ step +:+ ending) = None.
Proof.
  intros H1 H2 H3. repeat apply dirname_app_None; done.
Qed.

(** X17: [save_prompt_to_file] in a directory where [prompts] is missing or
    is a directory, with a time stamp and a step name that hold no slash, and
    a target that is not itself a directory: the call succeeds, [prompts] is a
    directory afterwards, reading the dump back gives one block per message in
    the order of the list, no other path is touched, and the context and the
    message list are as they were. *)
Theorem prompt_dump_can_be_read_back (msgs : list Message)
    (round_time : option string) (step now : string) (s : State) :
  fs s !! "prompts" = None ∨ fs s !! "prompts" = Some Dir →
  dirname (default now round_time) = None →
  dirname step = None →
  fs s !! ("prompts/" +:+ default now round_time +:+ "_planner_" +:+ step
           +:+ "_prompt.txt") ≠ Some Dir →
  ∃ s',
    save_prompt_to_file msgs round_time step now s = (Ok tt, s')
    ∧ ctx s' = ctx s ∧ messages s' = messages s
    ∧ fs s' !! "prompts" = Some Dir
    ∧ open_read (fs s')
        ("prompts/" +:+ default now round_time +:+ "_planner_" +:+ step
         +:+ "_prompt.txt")
      = Ok (foldr (λ msg acc, render_prompt_message msg +:+ acc) "" msgs)
    ∧ ∀ p, p ≠ "prompts" →
           p ≠ "prompts/" +:+ default now round_time +:+ "_planner_" +:+ step
               +:+ "_prompt.txt" →
           fs s' !! p = fs s !! p.
Proof.
  intros Hp Ht Hs Htarget. unfold save_prompt_to_file. cbv zeta.
  rewrite dump_into_prompts; [|done|by apply dump_name_no_slash|done].
  eexists. split_and!; [done|done|done| | |]; cbn [fs].
  - rewrite lookup_insert_ne, lookup_insert_eq; [done|].
    apply prompts_file_not_prompts.
  - unfold open_read. by rewrite lookup_insert_eq.
  - intros p H1 H2. by rewrite !lookup_insert_ne.
Qed.

(** X18: [save_response_to_file] under the same conditions: the call
    succeeds, and reading the dump back gives the heading, the response and,
    when there are tool calls, their section with one block per call; no path
    other than [prompts] and the dump is touched. *)
Theorem response_dump_can_be_read_back (resp : string)
    (tool_calls : list (string * gmap string string))
    (round_time : option string) (step now : string) (s : State) :
  fs s !! "prompts" = None ∨ fs s !! "prompts" = Some Dir →
  dirname (default now round_time) = None →
  dirname step = None →
  fs s !! ("prompts/" +:+ default now round_time +:+ "_planner_" +:+ step
           +:+ "_response.txt") ≠ Some Dir →
  ∃ s',
    save_response_to_file resp tool_calls round_time step now s = (Ok tt, s')
    ∧ ctx s' = ctx s ∧ messages s' = messages s
    ∧ fs s' !! "prompts" = Some Dir
    ∧ open_read (fs s')
        ("prompts/" +:+ default now round_time +:+ "_planner_" +:+ step
         +:+ "_response.txt")
      = Ok ("=== Response ===" +:+ nl +:+ resp +:+ nl
            +:+ match tool_calls with
                | [] => ""
                | _ => nl +:+ "=== Tool Calls ===" +:+ nl
                       +:+ foldr (λ c acc, render_tool_call c +:+ acc) "" tool_calls
                end)
    ∧ ∀ p, p ≠ "prompts" →
           p ≠ "prompts/" +:+ default now round_time +:+ "_planner_" +:+ step
               +:+ "_response.txt" →
           fs s' !! p = fs s !! p.
Proof.
  intros Hp Ht Hs Htarget. unfold save_response_to_file. cbv zeta.
  rewrite dump_into_prompts; [|done|by apply dump_name_no_slash|done].
  eexists. split_and!; [done|done|done| | |]; cbn [fs].
  - rewrite lookup_insert_ne, lookup_insert_eq; [done|].
    apply prompts_file_not_prompts.
  - unfold open_read. by rewrite lookup_insert_eq.
  - intros p H1 H2. by rewrite !lookup_insert_ne.
Qed.

(** X19: in debug mode, when [prompts] is an ordinary file, [plan] raises
    [NotADirectoryError] for the dump of the prompt before it calls the model:
    no turn is used, the files are as they were, and so is the usage total. *)
Theorem debug_round_needs_prompts_directory (agent : PlannerAgent)
    (c : PlannerContext) (f : FS) (now : string) (turns : list Turn)
    (x : string) :
  debug c = true →
  f !! "prompts" = Some (File x) →
  dirname now = None →
  f !! ("prompts/" +:+ now +:+ "_planner_" +:+ "planning" +:+ "_prompt.txt")
  ≠ Some Dir →
  plan agent c f now turns
  = (Raise (NotADirectoryError_at
              ("prompts/" +:+ now +:+ "_planner_" +:+ "planning" +:+ "_prompt.txt")),
     Build_State (reset_file_changes c) f (_build_prompt agent c f)).
Proof.
  intros Hd Hp Hnow Htarget. rewrite plan_unfold.
  assert (Hprep : prepare agent now (Build_State c f [])
                  = (Raise (NotADirectoryError_at
                              ("prompts/" +:+ now +:+ "_planner_" +:+ "planning"
                               +:+ "_prompt.txt")),
                     Build_State (reset_file_changes c) f (_build_prompt agent c f))).
  { unfold prepare. unfold_M. cbn. rewrite Hd.
    unfold save_prompt_to_file. cbv zeta.
    apply (dump_refused _ _ x); [done|by apply dump_name_no_slash|done]. }
  by rewrite Hprep.
Qed.

(** ** Writes and accounting across a round *)

(** X20: an exception does not undo what the round has done.  Outside debug
    mode, when the first answer is a file-write request that is carried out
    and the next model call raises, [plan] returns the error text, the files
    are as [create_file] left them, and the written name is still recorded as
    changed. *)
Theorem failure_does_not_undo_writes (agent : PlannerAgent)
    (c : PlannerContext) (f f' : FS) (now : string) (t1 t2 : Turn)
    (rest : list Turn) (m1 : ChatMessage) (fc : FunctionCall)
    (args : gmap string string) (e : exn) :
  debug c = false →
  response t1 = Ok m1 →
  truthy (content m1) = false →
  function_call m1 = Some fc →
  json_loads (arguments fc) = Ok args →
  create_file (args !! "filename") (args !! "content") f = Ok f' →
  response t2 = Raise e →
  ∃ s',
    plan agent c f now (t1 :: t2 :: rest)
    = (Ok (Some ("Error during planning: " +:+ exn_str e)), s')
    ∧ fs s' = f'
    ∧ files_changed_this_round (ctx s') = {[ args !! "filename" ]}.
Proof.
  intros Hd Hr1 Ht1 Hf1 Hj Hw Hr2.
  rewrite (plan_no_debug _ _ _ _ _ Hd).
  set (s0 := Build_State (reset_file_changes c) f (_build_prompt agent c f)).
  assert (Hd0 : debug (ctx s0) = false) by exact Hd.
  assert (Hb1 : loop_body agent t1 s0
                = (Ok Continue, written args f' (accounted agent t1 s0))).
  { rewrite (loop_body_no_debug _ _ _ _ Hd0 Hr1).
    by apply (handle_reply_write _ fc). }
  rewrite (loop_Continue _ _ _ _ _ Hb1).
  set (s1 := written args f' (accounted agent t1 s0)).
  assert (Hd1 : debug (ctx s1) = false) by exact Hd.
  rewrite (loop_Raise agent t2 rest s1 s1 e).
  - eexists. split_and!; [done|done|]. cbn. apply union_empty_r_L.
  - unfold loop_body. apply bind_Raise. by rewrite receive_no_debug, Hr2.
Qed.

(** X21: a call is accounted for when the model answers, not when the
    answer is handled well: after a pass the running total is the total
    before it with the figures of the call added, whether the pass continues,
    returns or raises; a call that raises adds nothing. *)
Theorem accounting_follows_the_call (agent : PlannerAgent) (t : Turn)
    (s : State) :
  total_usage (ctx (loop_body agent t s).2)
  = match response t with
    | Ok _ => totals_after (total_usage (ctx s)) [call_figures agent t]
    | Raise _ => total_usage (ctx s)
    end.
Proof.
  destruct (loop_body agent t s) as [r s'] eqn:Hb.
  by apply loop_body_usage in Hb.
Qed.

(** X22: a file-write request without a file name.  When [create_file]
    returns all the same, the pass continues: what is recorded as changed is
    the missing name, not a file, the confirmation appended to the message
    list reads [None] for the name, and a handoff is still refused if
    [scratchpad.md] was not written before. *)
Theorem write_request_without_filename (agent : PlannerAgent) (t : Turn)
    (s s1 : State) (message : ChatMessage) (fc : FunctionCall)
    (args : gmap string string) (f' : FS) :
  receive agent t s = (Ok message, s1) →
  truthy (content message) = false →
  function_call message = Some fc →
  json_loads (arguments fc) = Ok args →
  args !! "filename" = None →
  create_file None (args !! "content") (fs s1) = Ok f' →
  ∃ s2,
    loop_body agent t s = (Ok Continue, s2)
    ∧ files_changed_this_round (ctx s2)
      = {[ None ]} ∪ files_changed_this_round (ctx s)
    ∧ messages s2
      = messages s
        ++ [Build_Message "assistant" None (Some ("create_file", json_dumps args));
            Build_Message "user"
              (Some "Successfully created/updated file: None") None]
    ∧ (Some "scratchpad.md" ∉ files_changed_this_round (ctx s) →
       Some "scratchpad.md" ∉ files_changed_this_round (ctx s2)).
Proof.
  intros Hr Ht Hf Hj Hname Hw. exists (written args f' s1).
  rewrite (loop_body_received _ _ _ _ _ Hr).
  apply receive_Ok_inv in Hr as (_ & Hctx & Hm).
  split_and!.
  - apply (handle_reply_write _ fc); try done. by rewrite Hname.
  - cbn. by rewrite Hname, Hctx.
  - cbn. by rewrite Hname, Hm.
  - cbn. rewrite Hname, Hctx. cbn.
    intros Hn [Hx%elem_of_singleton|Hx]%elem_of_union; done.
Qed.

End Further.

(** * The properties at work on concrete rounds *)

Section Examples.
Local Existing Instance Demo.runtime.

(** C1 fails as stated: in debug mode, a handoff that comes with a function
    call whose arguments do not decode is neither returned nor retried: the
    round ends with the error text, no warning is appended to the prompt, and
    the next turn is not used. *)
Lemma handoff_dump_failure_ends_round :
  (plan Demo.agent (Demo.context true) ∅ "20240101_115959"
     [Cases.garbled_handoff; Demo.says "TASK_COMPLETE"]).1
  = Ok (Some "Error during planning: Expecting value: line 1 column 1 (char 0)")
  ∧ messages
      (plan Demo.agent (Demo.context true) ∅ "20240101_115959"
         [Cases.garbled_handoff; Demo.says "TASK_COMPLETE"]).2
    = _build_prompt Demo.agent (Demo.context true) ∅
  ∧ Some "scratchpad.md"
    ∉ files_changed_this_round
        (ctx (plan Demo.agent (Demo.context true) ∅ "20240101_115959"
                [Cases.garbled_handoff; Demo.says "TASK_COMPLETE"]).2).
Proof.
  split_and!; [vm_compute; reflexivity|vm_compute; reflexivity|].
  intros Hin. apply (bool_decide_pack _) in Hin. vm_compute in Hin. exact Hin.
Qed.

(** C1 on a round that starts with a premature handoff. *)
Lemma handoff_without_scratchpad_rejected_witness :
  loop_body Demo.agent (Demo.says "INVOKE_EXECUTOR") (Demo.start false)
  = (Ok Continue,
     Build_State
       (ctx (accounted Demo.agent (Demo.says "INVOKE_EXECUTOR") (Demo.start false)))
       ∅ [handoff_retry]).
Proof.
  apply (handoff_without_scratchpad_rejected Demo.agent
           (Demo.says "INVOKE_EXECUTOR") [] (Demo.start false)
           (Build_ChatMessage (Some "INVOKE_EXECUTOR") None)
           eq_refl eq_refl (not_elem_of_empty _)).
  vm_compute. reflexivity.
Defined.

(** C2 fails as stated: a reply whose text is a token with a space before it
    is not equal to either token, and it ends the round; so does a reply whose
    text is empty and which carries no function call; and so does, in debug
    mode, prose that comes with a function call whose arguments do not
    decode, for which no warning is appended. *)
Lemma text_that_is_no_token_ends_round :
  " TASK_COMPLETE" ≠ "TASK_COMPLETE"
  ∧ " TASK_COMPLETE" ≠ "INVOKE_EXECUTOR"
  ∧ (plan Demo.agent (Demo.context false) ∅ "20240101_115959"
       [Demo.says " TASK_COMPLETE"]).1
    = Ok (Some "TASK_COMPLETE")
  ∧ (plan Demo.agent (Demo.context false) ∅ "20240101_115959"
       [Demo.says ""]).1
    = Ok (Some "Error: Failed to update progress tracking")
  ∧ (plan Demo.agent (Demo.context true) ∅ "20240101_115959"
       [Cases.garbled_prose; Demo.says "TASK_COMPLETE"]).1
    = Ok (Some "Error during planning: Expecting value: line 1 column 1 (char 0)")
  ∧ messages
      (plan Demo.agent (Demo.context true) ∅ "20240101_115959"
         [Cases.garbled_prose; Demo.says "TASK_COMPLETE"]).2
    = _build_prompt Demo.agent (Demo.context true) ∅.
Proof.
  split_and!; [discriminate|discriminate|vm_compute; reflexivity..].
Qed.

(** C2 on a reply in prose. *)
Lemma other_text_is_retried_witness :
  loop Demo.agent [Demo.says "Here is my plan."; Demo.says "TASK_COMPLETE"]
    (Demo.start false)
  = loop Demo.agent [Demo.says "TASK_COMPLETE"]
      (Build_State
         (ctx (accounted Demo.agent (Demo.says "Here is my plan.") (Demo.start false)))
         ∅ [content_retry]).
Proof.
  apply (other_text_is_retried Demo.agent (Demo.says "Here is my plan.")
           [Demo.says "TASK_COMPLETE"] (Demo.start false)
           (Build_ChatMessage (Some "Here is my plan.") None) "Here is my plan.").
  - reflexivity.
  - reflexivity.
  - discriminate.
  - vm_compute. discriminate.
  - vm_compute. discriminate.
  - vm_compute. reflexivity.
Defined.



(** C4 on the write of the scratchpad. *)
Lemma written_file_tracked_once_witness :
  ∃ s2,
    loop_body Demo.agent (Demo.calls Demo.scratchpad_call) (Demo.start false)
    = (Ok Continue, s2)
    ∧ Some "scratchpad.md" ∈ files_changed_this_round (ctx s2).
Proof.
  destruct (written_file_tracked_once Demo.agent
              (Demo.calls Demo.scratchpad_call) (Demo.start false)
              (receive Demo.agent (Demo.calls Demo.scratchpad_call) (Demo.start false)).2
              (Build_ChatMessage None
                 (Some (Build_FunctionCall "create_file"
                          (Demo.json_object Demo.scratchpad_call))))
              (Build_FunctionCall "create_file" (Demo.json_object Demo.scratchpad_call))
              (list_to_map Demo.scratchpad_call)
              (Tools.create_file "scratchpad.md" "Step 1: search" ∅))
    as (s2 & Hb & _ & _ & Hin & _).
  - vm_compute. reflexivity.
  - reflexivity.
  - reflexivity.
  - vm_compute. reflexivity.
  - vm_compute. reflexivity.
  - exists s2. split; [exact Hb|exact Hin].
Defined.

(** C5 fails as stated: a text with a carriage return, written by
    [create_file], is loaded with a line feed in its place, and the user
    message of the next prompt holds no carriage return at all, so it does not
    hold the written text. *)
Lemma carriage_return_is_not_kept :
  has_cr Cases.old_mac_text = true
  ∧ dict_get
      (_load_file_contents (Demo.context false)
         (Tools.create_file "scratchpad.md" Cases.old_mac_text ∅))
      "scratchpad.md"
    = Some ("Step 1: search" +:+ nl +:+ "Step 2: read")
  ∧ match _build_prompt Demo.agent (Demo.context false)
            (Tools.create_file "scratchpad.md" Cases.old_mac_text ∅) with
    | [_; user] => has_cr (format_opt (msg_content user))
    | _ => true
    end = false.
Proof. split_and!; vm_compute; reflexivity. Qed.

(** C5 on a scratchpad that is overwritten. *)
Lemma written_file_shown_in_next_prompt_witness :
  dict_get
    (_load_file_contents (Demo.context false)
       (Tools.create_file "scratchpad.md" "new plan"
          {[ "scratchpad.md" := File "old plan" ]}))
    "scratchpad.md"
  = Some "new plan".
Proof.
  apply (written_file_shown_in_next_prompt Demo.agent (Demo.context false)
           {[ "scratchpad.md" := File "old plan" ]} "scratchpad.md" "new plan").
  apply (bool_decide_unpack _). vm_compute. exact I.
Defined.



(** C7 without the rules file and with it. *)
Lemma construction_requires_rules_file_witness :
  PlannerAgent_init "2024-01-01" ∅ "gpt-4o"
  = Raise (Exn "FileNotFoundError" "Required .plannerrules file not found")
  ∧ model <$> match PlannerAgent_init "2024-01-01"
                      {[ ".plannerrules" := File " Plan in steps. " ]} "gpt-4o"
              with Ok a => Some a | Raise _ => None end
    = Some "gpt-4o".
Proof.
  split.
  - apply (proj1 (construction_requires_rules_file "2024-01-01" ∅ "gpt-4o")).
    reflexivity.
  - rewrite (proj2 (construction_requires_rules_file "2024-01-01"
                      {[ ".plannerrules" := File " Plan in steps. " ]} "gpt-4o")
               " Plan in steps. ").
    + reflexivity.
    + vm_compute. reflexivity.
Defined.

(** C8 on a created file that is not there. *)
Lemma read_failure_becomes_placeholder_witness :
  dict_get (_load_file_contents (Demo.context false) ∅) "scratchpad.md"
  = Some "[Error reading file: [Errno 2] No such file or directory: 'scratchpad.md']".
Proof.
  apply (read_failure_becomes_placeholder Demo.agent (Demo.context false) ∅
           "scratchpad.md"
           (Exn "FileNotFoundError"
              "[Errno 2] No such file or directory: 'scratchpad.md'")).
  - apply (bool_decide_unpack _). vm_compute. exact I.
  - vm_compute. reflexivity.
Defined.


End Examples.


(** * The further properties at work *)

Section MoreExamples.
Local Existing Instance Demo.runtime.

(** X1 on a completion between two spaces. *)
Lemma reply_whitespace_is_ignored_witness :
  loop_body Demo.agent (Demo.says " TASK_COMPLETE ") (Demo.start false)
  = loop_body Demo.agent (Demo.says "TASK_COMPLETE") (Demo.start false).
Proof.
  apply (reply_whitespace_is_ignored Demo.agent (Demo.says " TASK_COMPLETE ")
           (Demo.start false) (Build_ChatMessage (Some " TASK_COMPLETE ") None)
           " " "TASK_COMPLETE" " ");
    [reflexivity|reflexivity|reflexivity|reflexivity|reflexivity|discriminate].
Defined.

(** X2 on prose that comes with a write of the scratchpad. *)
Lemma text_reply_ignores_function_call_witness :
  fs (loop_body Demo.agent Cases.both (Demo.start false)).2 = ∅.
Proof.
  apply (text_reply_ignores_function_call Demo.agent Cases.both
           (Demo.start false)
           (Build_ChatMessage (Some "Here is my plan.")
              (Some (Build_FunctionCall "create_file"
                       (Demo.json_object Demo.scratchpad_call))))
           "Here is my plan.");
    [reflexivity|reflexivity|reflexivity|discriminate].
Defined.

(** X3 on a completion followed by a turn that would fail. *)
Lemma completion_ends_the_round_witness :
  loop Demo.agent [Demo.says " TASK_COMPLETE "; Demo.fails] (Demo.start false)
  = (Ok (Some "TASK_COMPLETE"),
     (receive Demo.agent (Demo.says " TASK_COMPLETE ") (Demo.start false)).2).
Proof.
  apply (completion_ends_the_round Demo.agent (Demo.says " TASK_COMPLETE ")
           [Demo.fails] (Demo.start false) _
           (Build_ChatMessage (Some " TASK_COMPLETE ") None) " TASK_COMPLETE ").
  - vm_compute. reflexivity.
  - reflexivity.
  - reflexivity.
Defined.

(** X4 on a handoff after the scratchpad was written. *)
Lemma handoff_after_scratchpad_is_honoured_witness :
  loop Demo.agent [Demo.says "INVOKE_EXECUTOR"] Cases.scratchpad_written
  = (Ok (Some "INVOKE_EXECUTOR"),
     (receive Demo.agent (Demo.says "INVOKE_EXECUTOR") Cases.scratchpad_written).2).
Proof.
  apply (handoff_after_scratchpad_is_honoured Demo.agent
           (Demo.says "INVOKE_EXECUTOR") [] Cases.scratchpad_written _
           (Build_ChatMessage (Some "INVOKE_EXECUTOR") None) "INVOKE_EXECUTOR").
  - vm_compute. reflexivity.
  - reflexivity.
  - reflexivity.
  - apply (bool_decide_unpack _). vm_compute. exact I.
Defined.

(** X5 on a write request whose arguments do not decode. *)
Lemma failed_write_is_not_recorded_witness :
  loop_body Demo.agent Cases.broken_call (Demo.start false)
  = (Raise (Exn "JSONDecodeError" "Expecting value: line 1 column 1 (char 0)"),
     (receive Demo.agent Cases.broken_call (Demo.start false)).2).
Proof.
  apply (failed_write_is_not_recorded Demo.agent Cases.broken_call []
           (Demo.start false) _
           (Build_ChatMessage None
              (Some (Build_FunctionCall "create_file" "not json")))
           (Build_FunctionCall "create_file" "not json")).
  - vm_compute. reflexivity.
  - reflexivity.
  - reflexivity.
  - left. vm_compute. reflexivity.
Defined.

(** X6 on a completion that carries an undecodable call, in debug mode. *)
Lemma debug_mode_decodes_the_call_first_witness :
  (loop_body Demo.agent Cases.garbled (Demo.start true)).1
  = Raise (Exn "JSONDecodeError" "Expecting value: line 1 column 1 (char 0)").
Proof.
  rewrite (debug_mode_decodes_the_call_first Demo.agent Cases.garbled
             (Demo.start true)
             (Build_ChatMessage (Some "TASK_COMPLETE")
                (Some (Build_FunctionCall "create_file" "not json")))
             (Build_FunctionCall "create_file" "not json")
             (Exn "JSONDecodeError" "Expecting value: line 1 column 1 (char 0)")).
  - reflexivity.
  - reflexivity.
  - reflexivity.
  - reflexivity.
  - vm_compute. reflexivity.
Defined.

(** X7 on a round whose first call fails. *)
Lemma failed_model_call_ends_the_round_witness :
  (plan Demo.agent (Demo.context false) ∅ "20240101_115959"
     [Demo.fails; Demo.says "TASK_COMPLETE"]).1
  = Ok (Some "Error during planning: rate limit reached").
Proof.
  rewrite (failed_model_call_ends_the_round Demo.agent (Demo.context false) ∅
             "20240101_115959" Demo.fails [Demo.says "TASK_COMPLETE"]
             (Exn "APIError" "rate limit reached"));
    reflexivity.
Defined.

(** X8 on a round that completes. *)
Lemma plan_result_range_witness :
  "TASK_COMPLETE" = "TASK_COMPLETE" ∨ "TASK_COMPLETE" = "INVOKE_EXECUTOR"
  ∨ "TASK_COMPLETE" = "Error: Failed to update progress tracking"
  ∨ ∃ e, "TASK_COMPLETE" = "Error during planning: " +:+ exn_str e.
Proof.
  apply (plan_result_range Demo.agent (Demo.context false) ∅ "20240101_115959"
           [Demo.says "TASK_COMPLETE"] "TASK_COMPLETE"
           (plan Demo.agent (Demo.context false) ∅ "20240101_115959"
              [Demo.says "TASK_COMPLETE"]).2).
  vm_compute. reflexivity.
Defined.

(** X9 on a completed round given one more turn. *)
Lemma later_turns_are_ignored_witness :
  plan Demo.agent (Demo.context false) ∅ "20240101_115959"
    ([Demo.says "TASK_COMPLETE"] ++ [Demo.fails])
  = (Ok (Some "TASK_COMPLETE"),
     (plan Demo.agent (Demo.context false) ∅ "20240101_115959"
        [Demo.says "TASK_COMPLETE"]).2).
Proof.
  apply (later_turns_are_ignored Demo.agent (Demo.context false) ∅
           "20240101_115959" [Demo.says "TASK_COMPLETE"] [Demo.fails]).
  - vm_compute. reflexivity.
  - discriminate.
Defined.

(** X11 on a round that writes the scratchpad and hands off. *)
Lemma handoff_needs_a_write_in_this_round_witness :
  ∃ t, t ∈ [Demo.calls Demo.scratchpad_call; Demo.says "INVOKE_EXECUTOR"]
       ∧ writes t (Some "scratchpad.md").
Proof.
  apply (proj2 (handoff_needs_a_write_in_this_round Demo.agent
                  (Demo.context false) ∅ "20240101_115959"
                  [Demo.calls Demo.scratchpad_call; Demo.says "INVOKE_EXECUTOR"])
           (plan Demo.agent (Demo.context false) ∅ "20240101_115959"
              [Demo.calls Demo.scratchpad_call; Demo.says "INVOKE_EXECUTOR"]).2).
  vm_compute. reflexivity.
Defined.

(** X12 on two premature handoffs. *)
Lemma premature_handoffs_are_retried_without_limit_witness :
  ∃ s',
    plan Demo.agent (Demo.context false) ∅ "20240101_115959"
      [Demo.says "INVOKE_EXECUTOR"; Demo.says " INVOKE_EXECUTOR"]
    = (Ok None, s')
    ∧ messages s'
      = _build_prompt Demo.agent (Demo.context false) ∅
        ++ replicate 2 handoff_retry
    ∧ fs s' = ∅
    ∧ files_changed_this_round (ctx s') = ∅.
Proof.
  apply (premature_handoffs_are_retried_without_limit Demo.agent
           (Demo.context false) ∅ "20240101_115959"
           [Demo.says "INVOKE_EXECUTOR"; Demo.says " INVOKE_EXECUTOR"]).
  - reflexivity.
  - repeat constructor.
    + exists (Build_ChatMessage (Some "INVOKE_EXECUTOR") None), "INVOKE_EXECUTOR".
      repeat split; reflexivity.
    + exists (Build_ChatMessage (Some " INVOKE_EXECUTOR") None), " INVOKE_EXECUTOR".
      repeat split; reflexivity.
Defined.

(** X13 on the write of the scratchpad followed by a handoff. *)
Lemma write_then_handoff_is_honoured_witness :
  ∃ s',
    plan Demo.agent (Demo.context false) ∅ "20240101_115959"
      [Demo.calls Demo.scratchpad_call; Demo.says "INVOKE_EXECUTOR"]
    = (Ok (Some "INVOKE_EXECUTOR"), s')
    ∧ fs s' = Tools.create_file "scratchpad.md" "Step 1: search" ∅
    ∧ files_changed_this_round (ctx s') = {[ Some "scratchpad.md" ]}.
Proof.
  apply (write_then_handoff_is_honoured Demo.agent (Demo.context false) ∅
           (Tools.create_file "scratchpad.md" "Step 1: search" ∅)
           "20240101_115959" (Demo.calls Demo.scratchpad_call)
           (Demo.says "INVOKE_EXECUTOR") []
           (Build_ChatMessage None
              (Some (Build_FunctionCall "create_file"
                       (Demo.json_object Demo.scratchpad_call))))
           (Build_ChatMessage (Some "INVOKE_EXECUTOR") None)
           (Build_FunctionCall "create_file" (Demo.json_object Demo.scratchpad_call))
           (list_to_map Demo.scratchpad_call) "INVOKE_EXECUTOR").
  - reflexivity.
  - reflexivity.
  - reflexivity.
  - reflexivity.
  - vm_compute. reflexivity.
  - vm_compute. reflexivity.
  - vm_compute. reflexivity.
  - reflexivity.
  - reflexivity.
  - reflexivity.
Defined.

(** X14 on a context whose debug flag is switched, in a file system with
    one more file. *)
Lemma prompt_depends_on_request_and_created_files_witness :
  _build_prompt Demo.agent (Demo.context false)
    {[ "scratchpad.md" := File "plan" ]}
  = _build_prompt Demo.agent (Demo.context true)
      (<[ "other.txt" := File "unrelated" ]> {[ "scratchpad.md" := File "plan" ]}).
Proof.
  apply (prompt_depends_on_request_and_created_files Demo.agent
           (Demo.context false) {[ "scratchpad.md" := File "plan" ]}
           (<[ "other.txt" := File "unrelated" ]> {[ "scratchpad.md" := File "plan" ]})
           [] None None true ∅).
  intros k Hk. unfold Demo.context, PlannerContext_init in Hk. cbn in Hk.
  apply elem_of_singleton in Hk. rewrite Hk. split.
  - vm_compute. reflexivity.
  - intros d Hd. vm_compute in Hd. inversion Hd.
Defined.

(** X15 on a context without created files. *)
Lemma prompt_without_created_files_witness :
  _build_prompt Demo.agent Demo.resumed ∅
  = [Build_Message "system" (Some "rules") None;
     Build_Message "user"
       (Some (nl +:+ "Current User Request:" +:+ nl +:+ "find papers" +:+ nl
              +:+ nl +:+ nl +:+ "Available Files: " +:+ nl)) None].
Proof.
  apply (prompt_without_created_files Demo.agent Demo.resumed ∅).
  reflexivity.
Defined.

(** X16 on a rules file with a space on either side. *)
Lemma rules_whitespace_is_ignored_witness :
  PlannerAgent_init "2024-01-01"
    {[ ".plannerrules" := File " Plan in steps. " ]} "gpt-4o"
  = PlannerAgent_init "2024-01-01"
      {[ ".plannerrules" := File "Plan in steps." ]} "gpt-4o".
Proof.
  apply (rules_whitespace_is_ignored "2024-01-01" _ _ "gpt-4o"
           " " "Plan in steps." " ");
    reflexivity.
Defined.

(** X17 on the first dump of a debug round. *)
Lemma prompt_dump_can_be_read_back_witness :
  ∃ s',
    save_prompt_to_file (_build_prompt Demo.agent (Demo.context true) ∅)
      None "planning" "20240101_115959" (Demo.start true)
    = (Ok tt, s')
    ∧ fs s' !! "prompts" = Some Dir.
Proof.
  destruct (prompt_dump_can_be_read_back
              (_build_prompt Demo.agent (Demo.context true) ∅)
              None "planning" "20240101_115959" (Demo.start true))
    as (s' & Hs & _ & _ & Hdir & _).
  - left. reflexivity.
  - reflexivity.
  - reflexivity.
  - vm_compute. discriminate.
  - exists s'. split; [exact Hs|exact Hdir].
Defined.

(** X18 on the dump of a completion. *)
Lemma response_dump_can_be_read_back_witness :
  ∃ s',
    save_response_to_file "TASK_COMPLETE" [] None "planning" "20240101_120000"
      (Demo.start true)
    = (Ok tt, s')
    ∧ open_read (fs s') "prompts/20240101_120000_planner_planning_response.txt"
      = Ok ("=== Response ===" +:+ nl +:+ "TASK_COMPLETE" +:+ nl).
Proof.
  destruct (response_dump_can_be_read_back "TASK_COMPLETE" [] None "planning"
              "20240101_120000" (Demo.start true))
    as (s' & Hs & _ & _ & _ & Hread & _).
  - left. reflexivity.
  - reflexivity.
  - reflexivity.
  - vm_compute. discriminate.
  - exists s'. split; [exact Hs|exact Hread].
Defined.

(** X19 on a debug round where [prompts] is a file of notes. *)
Lemma debug_round_needs_prompts_directory_witness :
  (plan Demo.agent (Demo.context true) {[ "prompts" := File "notes" ]}
     "20240101_115959" [Demo.says "TASK_COMPLETE"]).2
  = Build_State (reset_file_changes (Demo.context true))
      {[ "prompts" := File "notes" ]}
      (_build_prompt Demo.agent (Demo.context true) {[ "prompts" := File "notes" ]}).
Proof.
  rewrite (debug_round_needs_prompts_directory Demo.agent (Demo.context true)
             {[ "prompts" := File "notes" ]} "20240101_115959"
             [Demo.says "TASK_COMPLETE"] "notes").
  - reflexivity.
  - reflexivity.
  - reflexivity.
  - reflexivity.
  - vm_compute. discriminate.
Defined.

(** X20 on a write followed by a failing call. *)
Lemma failure_does_not_undo_writes_witness :
  ∃ s',
    plan Demo.agent (Demo.context false) ∅ "20240101_115959"
      [Demo.calls Demo.notes_call; Demo.fails]
    = (Ok (Some "Error during planning: rate limit reached"), s')
    ∧ fs s' = Tools.create_file "notes.md" "draft" ∅
    ∧ files_changed_this_round (ctx s') = {[ Some "notes.md" ]}.
Proof.
  destruct (failure_does_not_undo_writes Demo.agent (Demo.context false) ∅
              (Tools.create_file "notes.md" "draft" ∅)
              "20240101_115959" (Demo.calls Demo.notes_call) Demo.fails []
              (Build_ChatMessage None
                 (Some (Build_FunctionCall "create_file"
                          (Demo.json_object Demo.notes_call))))
              (Build_FunctionCall "create_file" (Demo.json_object Demo.notes_call))
              (list_to_map Demo.notes_call)
              (Exn "APIError" "rate limit reached"))
    as (s' & Hplan & Hfs & Hch).
  - reflexivity.
  - reflexivity.
  - reflexivity.
  - reflexivity.
  - vm_compute. reflexivity.
  - vm_compute. reflexivity.
  - reflexivity.
  - exists s'. split; [exact Hplan|]. split; [exact Hfs|].
    rewrite Hch. vm_compute. reflexivity.
Defined.

(** X22 on a write request without a file name, with a tool that does not
    raise. *)
Lemma write_request_without_filename_witness :
  ∃ s2,
    loop_body (rt:=Cases.lenient) Demo.agent (Demo.calls Cases.untitled_call)
      (Demo.start false)
    = (Ok Continue, s2)
    ∧ files_changed_this_round (ctx s2) = {[ None ]} ∪ ∅.
Proof.
  destruct (write_request_without_filename (rt:=Cases.lenient) Demo.agent
              (Demo.calls Cases.untitled_call) (Demo.start false)
              (receive (rt:=Cases.lenient) Demo.agent
                 (Demo.calls Cases.untitled_call) (Demo.start false)).2
              (Build_ChatMessage None
                 (Some (Build_FunctionCall "create_file"
                          (Demo.json_object Cases.untitled_call))))
              (Build_FunctionCall "create_file" (Demo.json_object Cases.untitled_call))
              (list_to_map Cases.untitled_call) ∅)
    as (s2 & Hb & Hch & _).
  - vm_compute. reflexivity.
  - reflexivity.
  - reflexivity.
  - vm_compute. reflexivity.
  - vm_compute. reflexivity.
  - vm_compute. reflexivity.
  - exists s2. split; [exact Hb|exact Hch].
Defined.

End MoreExamples.
